(** * Price feed pipeline of [app.py]: outlier filter, daily aggregation, rolling mean

    The development embeds [remove_outliers_iqr] and [calculate_price_feed]
    of [src/app.py] together with the pandas operations they call
    ([Series.quantile], [Series.median], [rolling(...).mean()], [dropna],
    [unique], boolean masks).

    Numbers.  A [float] column is modelled by exact rationals ([Q]); a NaN
    cell is [None], and equality of prices is [Qeq] ([==]).  The code
    computes in binary64: a value that lies exactly on the edge of the
    band in [Q] can fall off it after rounding, which happens for a date
    with two different prices (module [Binary64] computes the rounded band
    of such a pair), and magnitudes near [10^308] overflow.  General
    statements on which dates are kept and on how many rows come back are
    therefore made for inputs where rounding cannot change the outcome
    ([no_split_pair], [prices_in_range]).

    Dates.  The ['date'] cell is a naive [datetime]; it is modelled by its
    count of microseconds on the calendar time line ([Z]).  Its calendar
    day is that count divided by the length of a day.

    Errors.  Python exceptions are values of [exn]; a call either returns
    ([Ok]) or raises ([Raise]).

    Fetching and display.  [get_zillow_data] is embedded over decoded JSON
    values ([json]: an [int] is an integer, a [float] an exact rational),
    with the server
    ([requests.put]) and [datetime.fromtimestamp] as parameters; [main] is
    embedded as a step on the session state, its widgets being inputs. *)

From Stdlib Require PrimFloat.
From Stdlib Require Import String.
From Stdlib Require Import ZArith QArith Qround Qminmax Qabs List Bool Lia Lqa.
From Stdlib Require Import Sorting.Mergesort Sorting.Sorted Sorting.Permutation.
From Stdlib Require Import Orders RelationClasses Morphisms.
Import ListNotations.

Local Open Scope Q_scope.

(** ** Exceptions *)

Inductive exn : Type :=
| KeyError (key : String.string)
| ValueError (msg : String.string).

Inductive result (A : Type) : Type :=
| Ok (a : A)
| Raise (e : exn).
Arguments Ok {A} a.
Arguments Raise {A} e.

(** ** Sorting *)

Module QOrder <: TotalLeBool.
Definition t : Type := Q.
Definition leb : t -> t -> bool := Qle_bool.
Definition leb_total (a b : t) : leb a b = true \/ leb b a = true :=
  match Qlt_le_dec a b with
  | left H => or_introl (proj2 (Qle_bool_iff a b) (Qlt_le_weak a b H))
  | right H => or_intror (proj2 (Qle_bool_iff b a) H)
  end.
End QOrder.

Module QSort := Sort QOrder.

Module ZOrder <: TotalLeBool.
Definition t : Type := Z.
Definition leb : t -> t -> bool := Z.leb.
Definition leb_total (a b : t) : leb a b = true \/ leb b a = true :=
  match Z.le_ge_cases a b with
  | or_introl H => or_introl (proj2 (Z.leb_le a b) H)
  | or_intror H => or_intror (proj2 (Z.leb_le b a) H)
  end.
End ZOrder.

Module ZSort := Sort ZOrder.

(** ** Data model *)

(** One dict of the [data] list, as [get_zillow_data] builds it. *)
Record Transaction : Type := mkTransaction {
  date : Z;
  price_per_sqft : Q;
  address : String.string;
  price : Q;
  sqft : Q
}.

(** [datetime.date()] of a naive datetime counted in microseconds. *)
Definition usec_per_day : Z := 86400000000.
Definition calendar_day (ts : Z) : Z := (ts / usec_per_day)%Z.

Module TxOrder <: TotalLeBool.
Definition t : Type := Transaction.
Definition leb (a b : t) : bool := (date a <=? date b)%Z.
Definition leb_total (a b : t) : leb a b = true \/ leb b a = true :=
  ZOrder.leb_total (date a) (date b).
End TxOrder.

Module TxSort := Sort TxOrder.

(** ** pandas column operations *)

(** [Series.quantile(q)], default [interpolation='linear']: the virtual
    index is [(n - 1) * q], [j] its integer part and [g] its fractional
    part; the result is [a + (b - a) * g] for the order statistics [a] at
    [j] and [b] at [j + 1] (capped at the last index).  An empty column
    gives NaN. *)
Definition quantile_sorted (q : Q) (s : list Q) : Q :=
  let n := Z.of_nat (length s) in
  let h := inject_Z (n - 1) * q in
  let j := Qfloor h in
  let g := h - inject_Z j in
  let a := nth (Z.to_nat j) s 0 in
  let b := nth (Z.to_nat (Z.min (j + 1) (n - 1))) s 0 in
  a + (b - a) * g.

Definition quantile (q : Q) (col : list Q) : option Q :=
  match col with
  | [] => None
  | _ => Some (quantile_sorted q (QSort.sort col))
  end.


(** [Series.median()]: the middle order statistic, or the mean of the two
    middle ones; NaN on an empty column. *)
Definition median (col : list Q) : option Q :=
  match col with
  | [] => None
  | _ =>
      let s := QSort.sort col in
      let n := length s in
      if Nat.even n
      then Some ((nth (n / 2 - 1) s 0 + nth (n / 2) s 0) / 2)
      else Some (nth (n / 2) s 0)
  end.

(** [Series.unique()]: distinct values in order of first appearance. *)
Fixpoint unique (l : list Z) : list Z :=
  match l with
  | [] => []
  | x :: t => x :: filter (fun y => negb (y =? x)%Z) (unique t)
  end.

(** ** [remove_outliers_iqr] *)

Section OutlierFilter.
Context {A : Type}.
(** [df[column]] *)
Variable column : A -> Q.

(** The boolean mask of line 19. *)
Definition in_band (lower_bound upper_bound : Q) (r : A) : bool :=
  Qle_bool lower_bound (column r) && Qle_bool (column r) upper_bound.

Definition remove_outliers_iqr (df : list A) (multiplier : Q) : list A :=
  match quantile (1 # 4) (map column df), quantile (3 # 4) (map column df) with
  | Some Q1, Some Q3 =>
      let IQR := Q3 - Q1 in
      let lower_bound := Q1 - multiplier * IQR in
      let upper_bound := Q3 + multiplier * IQR in
      filter (in_band lower_bound upper_bound) df
  | _, _ =>
      (* NaN bounds: every comparison is False *)
      []
  end.
End OutlierFilter.

(** ** The band of a pair in binary64 *)

(** [Series.quantile] interpolates as numpy does: between the neighbours
    [a <= b] of the virtual index and for the fraction [t] it returns
    [a + (b - a) * t], or [b - (b - a) * (1 - t)] when [t >= 0.5], each
    operation rounded.  For a column of two values the neighbours are the
    two values and the fractions 0.25 and 0.75 (lines 12-13); the bounds
    are those of lines 14-16 and the mask that of line 19. *)
Module Binary64.
Import PrimFloat.
Local Open Scope float_scope.

Definition lerp (a b t : float) : float :=
  if 0x1p-1 <=? t then b - (b - a) * (1 - t) else a + (b - a) * t.

Definition pair_band (a b multiplier : float) : float * float :=
  let Q1 := lerp a b 0x1p-2 in
  let Q3 := lerp a b 0x1.8p-1 in
  let IQR := Q3 - Q1 in
  (Q1 - multiplier * IQR, Q3 + multiplier * IQR).

Definition kept (band : float * float) (v : float) : bool :=
  (fst band <=? v) && (v <=? snd band).

(** The literals [0.5] and [0.7] as Python reads them. *)
Definition half : float := 0x1p-1.
Definition seven_tenths : float := 0x1.6666666666666p-1.

(** The bounds printed with 17 significant digits are
    0.50000000000000011 and 0.69999999999999984. *)
Definition above_half : float := 0x1.0000000000001p-1.
Definition below_seven_tenths : float := 0x1.6666666666665p-1.
End Binary64.

(** ** [calculate_price_feed] *)

(** A dict appended to [results] (lines 123-127). *)
Record DailyRow : Type := mkDailyRow {
  d_date : Z;
  d_price_per_sqft : Q;
  d_transaction_count : nat
}.

(** A row of [results_df] after lines 131-134; [None] is NaN. *)
Record FeedRow : Type := mkFeedRow {
  f_date : Z;
  f_price_per_sqft : option Q;
  f_transaction_count : nat;
  f_price_per_sqft_raw : Q
}.

Definition unique_dates (df : list Transaction) : list Z :=
  ZSort.sort (unique (map date df)).

(** The body of the [for date in unique_dates] loop: the row it appends,
    if any.  [median] is NaN only on an empty column, which the guard on
    [len(clean_data)] excludes. *)
Definition day_result (df : list Transaction) (iqr_multiplier : Q) (d : Z)
  : option DailyRow :=
  let day_data := filter (fun r => (date r =? d)%Z) df in
  if (0 <? length day_data)%nat then
    let clean_data := remove_outliers_iqr price_per_sqft day_data iqr_multiplier in
    if (0 <? length clean_data)%nat then
      match median (map price_per_sqft clean_data) with
      | Some daily_price =>
          Some (mkDailyRow d daily_price (length clean_data))
      | None => None
      end
    else None
  else None.

Fixpoint collect {A B : Type} (f : A -> option B) (l : list A) : list B :=
  match l with
  | [] => []
  | x :: t =>
      match f x with
      | Some y => y :: collect f t
      | None => collect f t
      end
  end.

(** [results] when the loop ends.  [df] is the frame after
    [sort_values('date')]; the order that sort leaves among the rows of one
    date plays no part, a group being used only through its quantiles, its
    median and its length. *)
Definition daily_results (data : list Transaction) (iqr_multiplier : Q)
  : list DailyRow :=
  let df := TxSort.sort data in
  collect (day_result df iqr_multiplier) (unique_dates df).

Fixpoint Qsum (l : list Q) : Q :=
  match l with
  | [] => 0
  | x :: t => x + Qsum t
  end.

(** [rolling(window, min_periods=window, center=True).mean()] at row [i] of
    a column of [n] values: pandas' fixed window is [start, end) with
    [end = i + 1 + offset], [start = end - window], both clipped to
    [0, n], and [offset = (window - 1) // 2]; the mean is defined when the
    window holds at least [min_periods] (and at least one) observations. *)
Definition window_mean (window : Z) (xs : list Q) (i : nat) : option Q :=
  let n := Z.of_nat (length xs) in
  let offset := ((window - 1) / 2)%Z in
  let e := Z.min n (Z.max 0 (Z.of_nat i + 1 + offset)) in
  let s := Z.min n (Z.max 0 (Z.of_nat i + 1 + offset - window)) in
  let nobs := (e - s)%Z in
  if ((window <=? nobs) && (0 <? nobs))%Z
  then Some (Qsum (firstn (Z.to_nat nobs) (skipn (Z.to_nat s) xs)) / inject_Z nobs)
  else None.

Definition rolling_mean (window : Z) (xs : list Q) : list (option Q) :=
  map (window_mean window xs) (seq 0 (length xs)).

(** Lines 131-134: copy the column, then overwrite it with its rolling mean. *)
Fixpoint assign_rolling (rows : list DailyRow) (sm : list (option Q)) : list FeedRow :=
  match rows, sm with
  | r :: rows', s :: sm' =>
      mkFeedRow (d_date r) s (d_transaction_count r) (d_price_per_sqft r)
        :: assign_rolling rows' sm'
  | _, _ => []
  end.

Definition notna (r : FeedRow) : bool :=
  match f_price_per_sqft r with Some _ => true | None => false end.

(** [dropna(subset=['price_per_sqft'])] *)
Definition dropna (rows : list FeedRow) : list FeedRow := filter notna rows.

(** Lines 106-136.  [window_size] is a Python [int]; [rolling] hands it to
    64-bit code (a wider one raises [OverflowError] there), so the model
    stands for the windows that fit, and the statements about sizes below
    take the window under [2^31]. *)
Definition calculate_price_feed (data : list Transaction) (window_size : Z)
    (iqr_multiplier : Q) : result (list FeedRow) :=
  match data with
  | [] =>
      (* pd.DataFrame([]) has no columns: sort_values('date') fails *)
      Raise (KeyError "date"%string)
  | _ =>
      let results := daily_results data iqr_multiplier in
      match results with
      | [] =>
          (* pd.DataFrame([]) has no columns: line 131 fails *)
          Raise (KeyError "price_per_sqft"%string)
      | _ =>
          if (window_size <? 0)%Z
          then Raise (ValueError "min_periods must be >= 0"%string)
          else
            Ok (dropna (assign_rolling results
                          (rolling_mean window_size (map d_price_per_sqft results))))
      end
  end.

(** ** Scenario data *)

Definition tx (d : Z) (v : Q) : Transaction :=
  mkTransaction d v String.EmptyString v 1.

Definition day (k : Z) : Z := (k * usec_per_day)%Z.

Definition scenarioA : list Transaction :=
  [ tx (day 1) 10; tx (day 1) 10; tx (day 1) 10;
    tx (day 2) 20;
    tx (day 3) 12; tx (day 3) 12; tx (day 3) 12;
    tx (day 4) 8; tx (day 4) 100; tx (day 4) 9;
    tx (day 5) 15; tx (day 5) 15 ].

Definition show_row (r : FeedRow) : Z * option Q * nat * Q :=
  (calendar_day (f_date r), option_map Qred (f_price_per_sqft r),
   f_transaction_count r, Qred (f_price_per_sqft_raw r)).

Definition show (r : result (list FeedRow)) :=
  match r with Ok l => Ok (map show_row l) | Raise e => Raise e end.

(** ** Predicates and inputs used in the statements *)

Definition is_some {A : Type} (o : option A) : bool :=
  match o with Some _ => true | None => false end.

(** Row by row: same date, count and raw value, and a smoothed value equal
    to the raw one. *)
Definition smoothed_is_raw (d : DailyRow) (r : FeedRow) : Prop :=
  f_date r = d_date d /\
  f_transaction_count r = d_transaction_count d /\
  f_price_per_sqft_raw r = d_price_per_sqft d /\
  exists v, f_price_per_sqft r = Some v /\ v == d_price_per_sqft d.

Definition defined_as (d : DailyRow) (o : option Q) : Prop :=
  exists v, o = Some v /\ v == d_price_per_sqft d.

(** The frame a returning call computes. *)
Definition smoothed_frame (data : list Transaction) (w : Z) (m : Q) : list FeedRow :=
  dropna (assign_rolling (daily_results data m)
            (rolling_mean w (map d_price_per_sqft (daily_results data m)))).

Definition day4_group : list Transaction :=
  filter (fun r => (date r =? day 4)%Z) scenarioA.

(** Scenario A in the words of the specification. *)
Definition scenarioA_as_specified : Prop :=
  ~ In (tx (day 4) 100) (remove_outliers_iqr price_per_sqft day4_group (3 # 2)) /\
  Forall2 Qeq (map d_price_per_sqft (daily_results scenarioA (3 # 2)))
    [10; 20; 12; 17 # 2; 15] /\
  exists out,
    calculate_price_feed scenarioA 3 (3 # 2) = Ok out /\
    map (fun r => calendar_day (f_date r)) out = [2; 3; 4]%Z /\
    Forall2 (fun r v => exists sm, f_price_per_sqft r = Some sm /\ sm == v)
      out [14; 27 # 2; 71 # 6].

Definition hour : Z := 3600000000.
Definition minute : Z := 60000000.

Definition morning_sale : Transaction := tx (day 1 + 9 * hour) 10.
Definition evening_sale : Transaction := tx (day 1 + 17 * hour) 20.

Definition single_day : list Transaction :=
  [tx (day 7) 3; tx (day 7) 5; tx (day 7) 4].

Definition minute_apart : list Transaction :=
  [tx (day 3) 5; tx (day 3 + minute) 7; tx (day 4) 6].



(** ** [get_zillow_data] *)

(** A decoded JSON value, as [json.loads] builds it: a number written
    without fraction or exponent is an [int], of any size, and any other
    number a [float], taken here as an exact rational.  A dict is the list
    of its items; its keys are distinct, as in a Python dict. *)
#[local] Set Warnings "-register-all".
Inductive json : Type :=
| JNull
| JBool (b : bool)
| JInt (z : Z)
| JFloat (q : Q)
| JStr (s : string)
| JList (items : list json)
| JDict (fields : list (string * json)).

(** The exceptions that matter in [get_zillow_data]: the three its inner
    handler catches, [AttributeError], the [OverflowError] of a division,
    and any other exception ([OverflowError], [OSError] or [ValueError] of
    [fromtimestamp], a body that is not JSON, a failed connection). *)
Inductive pyexc : Type :=
| PyKeyError
| PyTypeError
| PyZeroDivisionError
| PyAttributeError
| PyOverflowError
| PyOtherError.

Inductive outcome (A : Type) : Type :=
| Done (a : A)
| Throw (e : pyexc).
Arguments Done {A} a.
Arguments Throw {A} e.

Definition bind {A B : Type} (c : outcome A) (k : A -> outcome B) : outcome B :=
  match c with
  | Done a => k a
  | Throw e => Throw e
  end.

Notation "x <- c ;; k" := (bind c (fun x => k))
  (at level 61, c at next level, right associativity).

Fixpoint lookup (key : string) (fields : list (string * json)) : option json :=
  match fields with
  | [] => None
  | (k, v) :: rest => if String.eqb k key then Some v else lookup key rest
  end.

(** [v[key]] for a [str] key: only a dict can be subscripted by it. *)
Definition subscript (v : json) (key : string) : outcome json :=
  match v with
  | JDict fields =>
      match lookup key fields with
      | Some x => Done x
      | None => Throw PyKeyError
      end
  | _ => Throw PyTypeError
  end.

(** [v.get(key)]: only a dict has the method. *)
Definition dict_get (v : json) (key : string) : outcome json :=
  match v with
  | JDict fields =>
      match lookup key fields with
      | Some x => Done x
      | None => Done JNull
      end
  | _ => Throw PyAttributeError
  end.

(** Truth value of [v] in an [if]. *)
Definition truthy (v : json) : bool :=
  match v with
  | JNull => false
  | JBool b => b
  | JInt z => negb (z =? 0)%Z
  | JFloat q => negb (Qeq_bool q 0)
  | JStr s => negb (String.eqb s EmptyString)
  | JList items => match items with [] => false | _ => true end
  | JDict fields => match fields with [] => false | _ => true end
  end.

(** The operands [/] accepts: [int], [float] and [bool] (an [int]), with
    their values. *)
Definition number (v : json) : option Q :=
  match v with
  | JInt z => Some (inject_Z z)
  | JFloat q => Some q
  | JBool b => Some (if b then 1 else 0)
  | _ => None
  end.

Definition integral (v : json) : bool :=
  match v with
  | JInt _ | JBool _ => true
  | _ => false
  end.

(** From [2^1024 - 2^970] on a magnitude rounds past the largest binary64
    number: turning such an [int], or such a quotient of two [int]s, into
    a [float] raises [OverflowError]. *)
Definition float_limit : Q := inject_Z (2 ^ 1024 - 2 ^ 970).

Definition fits_float (x : Q) : bool := negb (Qle_bool float_limit (Qabs x)).

(** No [OverflowError] in [a / b] for operands of values [x] and [y]: the
    quotient of two [int]s fits a [float]; otherwise each [int] operand
    does. *)
Definition overflow_free (a b : json) (x y : Q) : bool :=
  if integral a && integral b then fits_float (x / y)
  else (negb (integral a) || fits_float x) && (negb (integral b) || fits_float y).

(** [a / b].  Two [int]s: the divisor is tested first, then the size of
    the quotient.  With a [float] among the operands the [int] one is
    converted first, then the divisor is tested. *)
Definition truediv (a b : json) : outcome Q :=
  match number a, number b with
  | Some x, Some y =>
      if integral a && integral b then
        if Qeq_bool y 0 then Throw PyZeroDivisionError
        else if overflow_free a b x y then Done (x / y)
        else Throw PyOverflowError
      else
        if overflow_free a b x y then
          if Qeq_bool y 0 then Throw PyZeroDivisionError else Done (x / y)
        else Throw PyOverflowError
  | _, _ => Throw PyTypeError
  end.

(** [for listing in v]: a list yields its items, a dict its keys, a string
    its characters; nothing else is iterable. *)
Definition iterate (v : json) : outcome (list json) :=
  match v with
  | JList items => Done items
  | JDict fields => Done (map (fun kv => JStr (fst kv)) fields)
  | JStr s => Done (map (fun c => JStr (String c EmptyString)) (list_ascii_of_string s))
  | _ => Throw PyTypeError
  end.

(** A dict appended to [all_data] (lines 85-91). *)
Record Sale : Type := mkSale {
  s_date : Z;
  s_price_per_sqft : Q;
  s_address : json;
  s_price : json;
  s_sqft : json
}.

(** What [requests.put] gives for a page: a response with its status code
    and what [response.json()] returns ([None] when it raises), or an
    exception. *)
Inductive response : Type :=
| Reply (status_code : Z) (body : option json)
| NoReply.

(** What the user and the network see of a run. *)
Inductive event : Type :=
| Requested (page : Z)
| ErrorOnPage (page : Z) (status_code : Z)
| ErrorProcessing (page : Z).

Section Fetch.
(** [datetime.fromtimestamp] on a number of seconds: the naive local
    datetime, or [None] where the platform raises. *)
Variable fromtimestamp : Q -> option Z.
(** [requests.put(url, json=payload, headers=headers)], the payload
    differing by [currentPage] only. *)
Variable put : Z -> response.

(** [listing['hdpData']['homeInfo']] *)
Definition home_info (listing : json) : outcome json :=
  hdp <- subscript listing "hdpData"%string ;;
  subscript hdp "homeInfo"%string.

(** The body of the inner [try] (lines 81-91): the dict it appends, if any. *)
Definition listing_record (listing : json) : outcome (option Sale) :=
  info <- home_info listing ;;
  living_area <- dict_get info "livingArea"%string ;;
  if truthy living_area then
    info1 <- home_info listing ;;
    date_sold_ms <- subscript info1 "dateSold"%string ;;
    seconds <- truediv date_sold_ms (JInt 1000) ;;
    match fromtimestamp seconds with
    | None => Throw PyOtherError
    | Some date_sold =>
        unformatted <- subscript listing "unformattedPrice"%string ;;
        info2 <- home_info listing ;;
        area <- subscript info2 "livingArea"%string ;;
        per_sqft <- truediv unformatted area ;;
        addr <- subscript listing "address"%string ;;
        unformatted' <- subscript listing "unformattedPrice"%string ;;
        info3 <- home_info listing ;;
        sqft' <- subscript info3 "livingArea"%string ;;
        Done (Some (mkSale date_sold per_sqft addr unformatted' sqft'))
    end
  else Done None.

(** [except (KeyError, TypeError, ZeroDivisionError): continue] *)
Definition caught_inner (e : pyexc) : bool :=
  match e with
  | PyKeyError | PyTypeError | PyZeroDivisionError => true
  | _ => false
  end.

(** The [for listing in listings] loop: [all_data] when it ends, and the
    exception that left it, if one did. *)
Fixpoint scan_listings (listings : list json) (all_data : list Sale)
  : list Sale * option pyexc :=
  match listings with
  | [] => (all_data, None)
  | listing :: rest =>
      match listing_record listing with
      | Done (Some sale) => scan_listings rest (all_data ++ [sale])
      | Done None => scan_listings rest all_data
      | Throw e =>
          if caught_inner e then scan_listings rest all_data
          else (all_data, Some e)
      end
  end.

(** [data['cat1']['searchResults']['listResults']] *)
Definition list_results (data : json) : outcome json :=
  cat1 <- subscript data "cat1"%string ;;
  results <- subscript cat1 "searchResults"%string ;;
  subscript results "listResults"%string.

(** One turn of the [for page in range(1, 9)] loop: [all_data] after it,
    what it shows, and whether the loop goes on ([false]: [break]). *)
Definition fetch_page (page : Z) (all_data : list Sale)
  : list Sale * list event * bool :=
  match put page with
  | NoReply => (all_data, [Requested page; ErrorProcessing page], false)
  | Reply status_code body =>
      if (status_code =? 200)%Z then
        match body with
        | None => (all_data, [Requested page; ErrorProcessing page], false)
        | Some data =>
            match (listings <- list_results data ;; iterate listings) with
            | Throw _ => (all_data, [Requested page; ErrorProcessing page], false)
            | Done listings =>
                match scan_listings listings all_data with
                | (all_data', None) => (all_data', [Requested page], true)
                | (all_data', Some _) =>
                    (all_data', [Requested page; ErrorProcessing page], false)
                end
            end
        end
      else (all_data, [Requested page; ErrorOnPage page status_code], false)
  end.

Fixpoint fetch_pages (pages : list Z) (all_data : list Sale) (shown : list event)
  : list Sale * list event :=
  match pages with
  | [] => (all_data, shown)
  | page :: rest =>
      let '(all_data', events, continue) := fetch_page page all_data in
      if continue then fetch_pages rest all_data' (shown ++ events)
      else (all_data', shown ++ events)
  end.

(** [range(1, 9)] *)
Definition page_range : list Z := [1; 2; 3; 4; 5; 6; 7; 8]%Z.

(** The list returned, with the requests made and the errors shown.  The
    spinner and the progress bar are left out. *)
Definition run_get_zillow_data : list Sale * list event :=
  fetch_pages page_range [] [].

Definition get_zillow_data : list Sale := fst run_get_zillow_data.
End Fetch.

(** Helpers to state what a fetch does. *)

Section FetchReading.
Variable fromtimestamp : Q -> option Z.
Variable put : Z -> response.

(** The sale a listing adds to [all_data], if it adds one. *)
Definition sale_of (listing : json) : option Sale :=
  match listing_record fromtimestamp listing with
  | Done (Some sale) => Some sale
  | _ => None
  end.

(** The exception of a listing that the inner handler does not catch. *)
Definition escaping (listing : json) : option pyexc :=
  match listing_record fromtimestamp listing with
  | Throw e => if caught_inner e then None else Some e
  | _ => None
  end.

(** The listings the loop gets through: those before the first one whose
    exception escapes. *)
Fixpoint before_escape (listings : list json) : list json :=
  match listings with
  | [] => []
  | listing :: rest =>
      match escaping listing with
      | Some _ => []
      | None => listing :: before_escape rest
      end
  end.

Fixpoint first_escape (listings : list json) : option pyexc :=
  match listings with
  | [] => None
  | listing :: rest =>
      match escaping listing with
      | Some e => Some e
      | None => first_escape rest
      end
  end.

(** What one page adds to [all_data], and whether the loop goes on after it. *)
Definition page_sales (page : Z) : list Sale :=
  fst (fst (fetch_page fromtimestamp put page [])).

Definition page_ok (page : Z) : bool :=
  snd (fetch_page fromtimestamp put page []).

Definition page_events (page : Z) : list event :=
  snd (fst (fetch_page fromtimestamp put page [])).

(** The pages of [pages] that get requested: up to the first that fails. *)
Fixpoint requested (pages : list Z) : list Z :=
  match pages with
  | [] => []
  | page :: rest => if page_ok page then page :: requested rest else [page]
  end.

Definition requests_of (events : list event) : list Z :=
  flat_map (fun e => match e with Requested page => [page] | _ => [] end) events.

(** What makes a listing add the sale [sale]: its [homeInfo] is an object
    whose [livingArea] is a non-zero number and whose [dateSold] is a
    number of milliseconds that [fromtimestamp] accepts, the listing has a
    numeric [unformattedPrice] and an [address], and neither division
    overflows. *)
Definition accepted (listing : json) (sale : Sale) : Prop :=
  exists fields date_sold_ms ms unformatted area,
    home_info listing = Done (JDict fields) /\
    lookup "livingArea"%string fields = Some (s_sqft sale) /\
    number (s_sqft sale) = Some area /\ ~ area == 0 /\
    lookup "dateSold"%string fields = Some date_sold_ms /\
    number date_sold_ms = Some ms /\
    overflow_free date_sold_ms (JInt 1000) ms 1000 = true /\
    fromtimestamp (ms / 1000) = Some (s_date sale) /\
    subscript listing "unformattedPrice"%string = Done (s_price sale) /\
    number (s_price sale) = Some unformatted /\
    overflow_free (s_price sale) (s_sqft sale) unformatted area = true /\
    s_price_per_sqft sale = unformatted / area /\
    subscript listing "address"%string = Done (s_address sale).
End FetchReading.

(** ** [main] *)

(** The row of [pd.DataFrame(data)] for a fetched dict.  The aggregator
    reads the ['date'] and ['price_per_sqft'] cells only; an address that
    is not a string is kept as the empty string, a price or area that is
    not a number as 0. *)
Definition as_transaction (sale : Sale) : Transaction :=
  mkTransaction (s_date sale) (s_price_per_sqft sale)
    (match s_address sale with JStr a => a | _ => EmptyString end)
    (match number (s_price sale) with Some q => q | None => 0 end)
    (match number (s_sqft sale) with Some q => q | None => 0 end).

(** [st.session_state]: the list under ['data'], when the key is there. *)
Definition Session : Type := option (list Sale).

(** The four metrics (lines 217-224); [None] is a value that is not a
    finite number (NaN, or the quotient by a zero initial price). *)
Record Metrics : Type := mkMetrics {
  initial_price : option Q;
  final_price : option Q;
  total_change : option Q;
  avg_daily_transactions : Q
}.

Definition percent_change (first last : option Q) : option Q :=
  match first, last with
  | Some a, Some b => if Qeq_bool a 0 then None else Some ((b / a - 1) * 100)
  | _, _ => None
  end.

(** The statistics block: [iloc[0]] raises [IndexError] on an empty frame. *)
Definition summary (df : list FeedRow) : option Metrics :=
  match df with
  | [] => None
  | first :: _ =>
      let last_row := last df first in
      Some (mkMetrics
              (f_price_per_sqft first) (f_price_per_sqft last_row)
              (percent_change (f_price_per_sqft first) (f_price_per_sqft last_row))
              (Qsum (map (fun r => inject_Z (Z.of_nat (f_transaction_count r))) df)
               / inject_Z (Z.of_nat (length df))))
  end.

Inductive notice : Type :=
| Fetched (e : event)
| Success (listings : nat)
| FailedToCollect.

(** How a run of the script ends. *)
Inductive display : Type :=
| NothingShown
| FeedRaised (e : exn)
| ChartThenIndexError (df : list FeedRow)
| Dashboard (df : list FeedRow) (metrics : Metrics).

Section Main.
Variable fromtimestamp : Q -> option Z.
Variable put : Z -> response.

(** Lines 149-156: the fetch button is there only while the session holds
    no data; [clicked] tells whether it was pressed in this run. *)
Definition fetch_step (session : Session) (clicked : bool) : Session * list notice :=
  match session with
  | Some _ => (session, [])
  | None =>
      if clicked then
        let (data, events) := run_get_zillow_data fromtimestamp put in
        match data with
        | [] => (None, map Fetched events ++ [FailedToCollect])
        | _ => (Some data, map Fetched events ++ [Success (length data)])
        end
      else (None, [])
  end.

(** Lines 158-224. *)
Definition show_step (session : Session) (window_size : Z) (iqr_multiplier : Q)
  : display :=
  match session with
  | None => NothingShown
  | Some data =>
      match calculate_price_feed (map as_transaction data) window_size iqr_multiplier with
      | Raise e => FeedRaised e
      | Ok df =>
          match summary df with
          | None => ChartThenIndexError df
          | Some metrics => Dashboard df metrics
          end
      end
  end.

Definition main (session : Session) (window_size : Z) (iqr_multiplier : Q)
    (clicked : bool) : Session * list notice * display :=
  let (session', notices) := fetch_step session clicked in
  (session', notices, show_step session' window_size iqr_multiplier).
End Main.

(** Successive runs of the script in one session: each run has its slider
    values, its click and the server as it answers at that moment. *)
Definition run_input : Type := (Z * Q * bool * (Z -> response))%type.

Fixpoint replay (fromtimestamp : Q -> option Z) (session : Session)
    (inputs : list run_input) : Session * list notice :=
  match inputs with
  | [] => (session, [])
  | (window_size, iqr_multiplier, clicked, put) :: rest =>
      let '(session', notices, _) :=
        main fromtimestamp put session window_size iqr_multiplier clicked in
      let (final, later) := replay fromtimestamp session' rest in
      (final, notices ++ later)
  end.

(** A small server to run the fetch on: page 1 has a listing without
    living area between two good ones, page 2 a listing whose [homeInfo] is
    [null] between two good ones, and every other page answers 500. *)
Definition sample_home_info (area : json) (ms : Z) : json :=
  JDict [("livingArea"%string, area); ("dateSold"%string, JInt ms)].

Definition sample_listing (unformatted : Z) (info : json) : json :=
  JDict [("hdpData"%string, JDict [("homeInfo"%string, info)]);
         ("unformattedPrice"%string, JInt unformatted);
         ("address"%string, JStr "1 Main St"%string)].

Definition sample_body (listings : list json) : json :=
  JDict [("cat1"%string,
          JDict [("searchResults"%string,
                  JDict [("listResults"%string, JList listings)])])].

Definition sample_page1 : list json :=
  [sample_listing 500000 (sample_home_info (JInt 1000) 86400000);
   sample_listing 400000 (JDict [("dateSold"%string, JInt 86400000)]);
   sample_listing 900000 (sample_home_info (JInt 1500) 172800000)].

Definition sample_page2 : list json :=
  [sample_listing 300000 (sample_home_info (JInt 600) 172800000);
   sample_listing 700000 JNull;
   sample_listing 800000 (sample_home_info (JInt 2000) 259200000)].

Definition sample_put (page : Z) : response :=
  if (page =? 1)%Z then Reply 200 (Some (sample_body sample_page1))
  else if (page =? 2)%Z then Reply 200 (Some (sample_body sample_page2))
  else Reply 500 None.

Definition sample_fromtimestamp (seconds : Q) : option Z :=
  Some (Qfloor (seconds * 1000000)).


Definition sample_session : list Sale := get_zillow_data sample_fromtimestamp sample_put.




Definition first_runs : list run_input := [(2%Z, 3 # 2, true, sample_put)].

Definition later_runs : list run_input :=
  [(3%Z, 1 # 2, true, fun _ : Z => NoReply); (1%Z, 3, false, sample_put)].

(** A group that is not made of exactly two rows with different values:
    its size is not 2, or all its values are equal. *)
Definition no_split_pair {A : Type} (column : A -> Q) (group : list A) : Prop :=
  length group <> 2%nat \/ exists v, forall r, In r group -> column r == v.

(** No date of [data] has exactly two transactions with different prices. *)
Definition dates_without_split_pair (data : list Transaction) : Prop :=
  forall t, In t data ->
    no_split_pair price_per_sqft (filter (fun u => (date u =? date t)%Z) data).

(** Positive prices, as every well-formed record has. *)
Definition positive_prices (data : list Transaction) : Prop :=
  forall t, In t data -> 0 < price_per_sqft t.

(** Prices between [10^-100] and [10^200]: far inside the binary64 range,
    so that no sum, product or quotient the pipeline forms leaves it. *)
Definition price_floor : Q := Qmake 1 (10 ^ 100)%positive.
Definition price_cap : Q := inject_Z (10 ^ 200).

Definition prices_in_range (data : list Transaction) : Prop :=
  forall t, In t data ->
    price_floor <= price_per_sqft t /\ price_per_sqft t <= price_cap.

(** * Properties *)

(** ** Lists and sorting *)

Lemma StronglySorted_nth {A : Type} (R : A -> A -> Prop) (d : A) (s : list A) :
  (forall x, R x x) -> StronglySorted R s ->
  forall i j, (i <= j < length s)%nat -> R (nth i s d) (nth j s d).
Proof.
  intros Hrefl Hs. induction Hs as [| a l Hl IH Ha]; intros i j Hij.
  - simpl in Hij. lia.
  - destruct i as [| i], j as [| j]; simpl in *; try lia.
    + apply Hrefl.
    + rewrite Forall_forall in Ha. apply Ha. apply nth_In. lia.
    + apply IH. lia.
Qed.

Lemma StronglySorted_weaken {A : Type} (R R' : A -> A -> Prop) (s : list A) :
  (forall x y, R x y -> R' x y) -> StronglySorted R s -> StronglySorted R' s.
Proof.
  intros Himp Hs. induction Hs as [| a l Hl IH Ha]; constructor; auto.
  rewrite Forall_forall in *. auto.
Qed.

Lemma Qsort_sorted (l : list Q) : StronglySorted Qle (QSort.sort l).
Proof.
  apply StronglySorted_weaken with (R := fun x y => is_true (QOrder.leb x y)).
  - intros x y H. apply Qle_bool_iff. exact H.
  - apply QSort.StronglySorted_sort.
    intros x y z Hxy Hyz. unfold is_true, QOrder.leb in *.
    rewrite Qle_bool_iff in *. eapply Qle_trans; eassumption.
Qed.

Lemma Qsort_length (l : list Q) : length (QSort.sort l) = length l.
Proof. symmetry. apply Permutation_length. apply QSort.Permuted_sort. Qed.

Lemma Qsort_In (l : list Q) (x : Q) : In x (QSort.sort l) <-> In x l.
Proof.
  split; intros H.
  - eapply Permutation_in; [apply Permutation_sym, QSort.Permuted_sort | exact H].
  - eapply Permutation_in; [apply QSort.Permuted_sort | exact H].
Qed.

Lemma Qsort_nth_le (l : list Q) (i j : nat) :
  (i <= j < length l)%nat ->
  nth i (QSort.sort l) 0 <= nth j (QSort.sort l) 0.
Proof.
  intros H. apply StronglySorted_nth.
  - apply Qle_refl.
  - apply Qsort_sorted.
  - rewrite Qsort_length. exact H.
Qed.

Lemma Zsort_sorted (l : list Z) : StronglySorted Z.le (ZSort.sort l).
Proof.
  apply StronglySorted_weaken with (R := fun x y => is_true (ZOrder.leb x y)).
  - intros x y H. apply Z.leb_le. exact H.
  - apply ZSort.StronglySorted_sort.
    intros x y z Hxy Hyz. unfold is_true, ZOrder.leb in *.
    rewrite Z.leb_le in *. lia.
Qed.

Lemma Zsort_In (l : list Z) (x : Z) : In x (ZSort.sort l) <-> In x l.
Proof.
  split; intros H.
  - eapply Permutation_in; [apply Permutation_sym, ZSort.Permuted_sort | exact H].
  - eapply Permutation_in; [apply ZSort.Permuted_sort | exact H].
Qed.

Lemma Txsort_In (l : list Transaction) (r : Transaction) :
  In r (TxSort.sort l) <-> In r l.
Proof.
  split; intros H.
  - eapply Permutation_in; [apply Permutation_sym, TxSort.Permuted_sort | exact H].
  - eapply Permutation_in; [apply TxSort.Permuted_sort | exact H].
Qed.

Lemma unique_In (l : list Z) (x : Z) : In x (unique l) <-> In x l.
Proof.
  induction l as [| a l IH]; simpl; [tauto |].
  rewrite filter_In, IH, negb_true_iff, Z.eqb_neq.
  destruct (Z.eq_dec a x); intuition congruence.
Qed.

Lemma unique_NoDup (l : list Z) : NoDup (unique l).
Proof.
  induction l as [| a l IH]; simpl; constructor.
  - rewrite filter_In, negb_true_iff, Z.eqb_neq. tauto.
  - apply NoDup_filter. exact IH.
Qed.

(** ** Quantiles of a sorted column *)

Lemma Qfloor_quarter (z : Z) : Qfloor (inject_Z z * (1 # 4)) = (z / 4)%Z.
Proof. unfold Qfloor, Qmult, inject_Z. simpl. rewrite Z.mul_1_r. reflexivity. Qed.

Lemma Qfloor_three_quarters (z : Z) : Qfloor (inject_Z z * (3 # 4)) = (z * 3 / 4)%Z.
Proof. unfold Qfloor, Qmult, inject_Z. simpl. reflexivity. Qed.

Lemma lerp_between (a b g : Q) :
  a <= b -> 0 <= g -> g <= 1 -> a <= a + (b - a) * g /\ a + (b - a) * g <= b.
Proof.
  intros Hab Hg0 Hg1.
  assert (H0 : 0 <= (b - a) * g) by (apply Qmult_le_0_compat; lra).
  assert (H1 : 0 <= (b - a) * (1 - g)) by (apply Qmult_le_0_compat; lra).
  split; lra.
Qed.

Section QuantileSorted.
Variable s : list Q.
Hypothesis Hsorted : StronglySorted Qle s.
Hypothesis Hne : (1 <= length s)%nat.
Variable q : Q.
Hypothesis Hq0 : 0 <= q.
Hypothesis Hq1 : q <= 1.

Let n := Z.of_nat (length s).
Let h := inject_Z (n - 1) * q.
Let j := Qfloor h.

Lemma virtual_index_range : (0 <= j <= n - 1)%Z.
Proof.
  assert (Hn : 0 <= inject_Z (n - 1)).
  { change 0 with (inject_Z 0). rewrite <- Zle_Qle. subst n. lia. }
  split.
  - change 0%Z with (Qfloor 0). apply Qfloor_resp_le.
    apply Qmult_le_0_compat; assumption.
  - rewrite <- (Qfloor_Z (n - 1)). apply Qfloor_resp_le.
    assert (H : 0 <= inject_Z (n - 1) * (1 - q))
      by (apply Qmult_le_0_compat; [exact Hn | lra]).
    subst h. lra.
Qed.

Lemma quantile_sorted_between :
  nth (Z.to_nat j) s 0 <= quantile_sorted q s /\
  quantile_sorted q s <= nth (Z.to_nat (Z.min (j + 1) (n - 1))) s 0.
Proof.
  pose proof virtual_index_range as Hj.
  unfold quantile_sorted. fold n. fold h. fold j.
  apply lerp_between.
  - apply StronglySorted_nth; [apply Qle_refl | exact Hsorted |].
    subst n. lia.
  - pose proof (Qfloor_le h). fold j in H. lra.
  - pose proof (Qlt_floor h) as H. fold j in H.
    rewrite inject_Z_plus in H. change (inject_Z 1) with 1 in H. lra.
Qed.
End QuantileSorted.

Lemma quantile_sorted_one (q a : Q) : quantile_sorted q [a] == a.
Proof.
  unfold quantile_sorted.
  replace (Qfloor (inject_Z (Z.of_nat (length [a]) - 1) * q)) with 0%Z
    by (destruct q; reflexivity).
  simpl. ring.
Qed.

Lemma quantile_sorted_two_q1 (a b : Q) :
  quantile_sorted (1 # 4) [a; b] == a + (b - a) * (1 # 4).
Proof.
  unfold quantile_sorted.
  change (Qfloor (inject_Z (Z.of_nat (length [a; b]) - 1) * (1 # 4))) with 0%Z.
  change (inject_Z (Z.of_nat (length [a; b]) - 1)) with 1.
  simpl. ring.
Qed.

Lemma quantile_sorted_two_q3 (a b : Q) :
  quantile_sorted (3 # 4) [a; b] == a + (b - a) * (3 # 4).
Proof.
  unfold quantile_sorted.
  change (Qfloor (inject_Z (Z.of_nat (length [a; b]) - 1) * (3 # 4))) with 0%Z.
  change (inject_Z (Z.of_nat (length [a; b]) - 1)) with 1.
  simpl. ring.
Qed.

(** ** The interquartile band *)

Lemma band_widens (q1 q3 m x : Q) :
  q1 <= q3 -> 0 <= m -> q1 <= x -> x <= q3 ->
  q1 - m * (q3 - q1) <= x /\ x <= q3 + m * (q3 - q1).
Proof.
  intros H13 Hm Hlo Hhi.
  assert (H : 0 <= m * (q3 - q1)) by (apply Qmult_le_0_compat; lra).
  split; lra.
Qed.

Section Quartiles.
Variable s : list Q.
Hypothesis Hsorted : StronglySorted Qle s.

(** From three values on, an order statistic lies between the quartiles. *)
Lemma quartiles_enclose_value :
  (3 <= length s)%nat ->
  exists x, In x s /\ quantile_sorted (1 # 4) s <= x /\ x <= quantile_sorted (3 # 4) s.
Proof.
  intros Hlen.
  assert (Hne : (1 <= length s)%nat) by lia.
  assert (Hq1 : 0 <= (1 # 4) /\ (1 # 4) <= 1) by (split; lra).
  assert (Hq3 : 0 <= (3 # 4) /\ (3 # 4) <= 1) by (split; lra).
  destruct (quantile_sorted_between s Hsorted Hne (1 # 4) (proj1 Hq1) (proj2 Hq1))
    as [_ Hup].
  destruct (quantile_sorted_between s Hsorted Hne (3 # 4) (proj1 Hq3) (proj2 Hq3))
    as [Hlow _].
  rewrite Qfloor_quarter in Hup. rewrite Qfloor_three_quarters in Hlow.
  set (n := Z.of_nat (length s)) in *.
  assert (Hn : (3 <= n)%Z) by (subst n; lia).
  assert (Hlenn : length s = Z.to_nat n) by (subst n; lia).
  clearbody n.
  assert (Hidx : (0 <= (n - 1) / 4 /\ (n - 1) / 4 + 1 <= (n - 1) * 3 / 4
                  /\ (n - 1) * 3 / 4 <= n - 1)%Z)
    by (Z.to_euclidean_division_equations; lia).
  replace (Z.min ((n - 1) / 4 + 1) (n - 1)) with ((n - 1) / 4 + 1)%Z in Hup by lia.
  exists (nth (Z.to_nat ((n - 1) / 4 + 1)) s 0). split; [| split].
  - apply nth_In. lia.
  - exact Hup.
  - eapply Qle_trans; [| exact Hlow].
    apply StronglySorted_nth; [apply Qle_refl | exact Hsorted |].
    lia.
Qed.

Lemma quartiles_ordered :
(1 <= length s)%nat -> quantile_sorted (1 # 4) s <= quantile_sorted (3 # 4) s.
Proof.
intros Hlen. destruct (Nat.le_gt_cases 3 (length s)) as [H3 | H3].
- destruct (quartiles_enclose_value H3) as (x & _ & Hlo & Hhi).
  eapply Qle_trans; eassumption.
- destruct s as [| a [| b [| c t]]]; simpl in Hlen, H3; try lia.
  + rewrite !quantile_sorted_one. apply Qle_refl.
  + rewrite quantile_sorted_two_q1, quantile_sorted_two_q3.
    apply StronglySorted_inv in Hsorted. destruct Hsorted as [_ Hab].
    apply Forall_inv in Hab.
    assert (H : 0 <= (b - a) * (1 # 2)) by (apply Qmult_le_0_compat; lra).
    lra.
Qed.

End Quartiles.

(** ** The outlier filter *)

Section OutlierFilterFacts.
Context {A : Type}.
Variable column : A -> Q.

Lemma in_band_iff (lo hi : Q) (r : A) :
  in_band column lo hi r = true <-> lo <= column r /\ column r <= hi.
Proof. unfold in_band. rewrite andb_true_iff, !Qle_bool_iff. tauto. Qed.

Lemma quantile_some (q : Q) (col : list Q) :
  col <> [] -> quantile q col = Some (quantile_sorted q (QSort.sort col)).
Proof. destruct col; [congruence | reflexivity]. Qed.

Lemma remove_outliers_iqr_unfold (df : list A) (m : Q) :
  df <> [] ->
  let s := QSort.sort (map column df) in
  let Q1 := quantile_sorted (1 # 4) s in
  let Q3 := quantile_sorted (3 # 4) s in
  remove_outliers_iqr column df m =
  filter (in_band column (Q1 - m * (Q3 - Q1)) (Q3 + m * (Q3 - Q1))) df.
Proof.
  intros Hne. unfold remove_outliers_iqr.
  rewrite !quantile_some by (destruct df; simpl; congruence).
  reflexivity.
Qed.

Lemma column_sorted_length (df : list A) :
  length (QSort.sort (map column df)) = length df.
Proof. rewrite Qsort_length. apply length_map. Qed.

Lemma column_quartiles_ordered (df : list A) :
  df <> [] ->
  quantile_sorted (1 # 4) (QSort.sort (map column df)) <=
  quantile_sorted (3 # 4) (QSort.sort (map column df)).
Proof.
  intros Hne. apply quartiles_ordered.
  - apply Qsort_sorted.
  - rewrite column_sorted_length. destruct df; simpl; [congruence | lia].
Qed.

End OutlierFilterFacts.

(** ** The daily loop *)

Lemma collect_In {A B : Type} (f : A -> option B) (l : list A) (y : B) :
  In y (collect f l) <-> exists x, In x l /\ f x = Some y.
Proof.
  induction l as [| a l IH]; simpl.
  - split; [tauto | intros (x & [] & _)].
  - destruct (f a) as [b |] eqn:Hfa; simpl; rewrite IH; split.
    + intros [Hb | (x & Hx & Hfx)]; [exists a; subst; auto | exists x; auto].
    + intros (x & [Hx | Hx] & Hfx); [left; congruence | right; exists x; auto].
    + intros (x & Hx & Hfx). exists x; auto.
    + intros (x & [Hx | Hx] & Hfx); [congruence | exists x; auto].
Qed.

Lemma collect_total_length {A B : Type} (f : A -> option B) (l : list A) :
  (forall x, In x l -> f x <> None) -> length (collect f l) = length l.
Proof.
  induction l as [| a l IH]; simpl; intros H; [reflexivity |].
  destruct (f a) eqn:Hfa.
  - simpl. f_equal. apply IH. intros x Hx. apply H. right. exact Hx.
  - exfalso. apply (H a); auto.
Qed.

Lemma median_some (col : list Q) : col <> [] -> exists v, median col = Some v.
Proof.
  intros H. destruct col as [| a col]; [congruence |]. unfold median.
  destruct (Nat.even _); eexists; reflexivity.
Qed.

Lemma day_result_date (df : list Transaction) (m : Q) (d : Z) (row : DailyRow) :
  day_result df m d = Some row -> d_date row = d.
Proof.
  unfold day_result.
  destruct (0 <? length _)%nat; [| discriminate].
  destruct (0 <? length _)%nat; [| discriminate].
  destruct (median _); [| discriminate].
  intros H. injection H as <-. reflexivity.
Qed.

Lemma day_result_count (df : list Transaction) (m : Q) (d : Z) (row : DailyRow) :
  day_result df m d = Some row -> (1 <= d_transaction_count row)%nat.
Proof.
  unfold day_result.
  destruct (0 <? length _)%nat; [| discriminate].
  destruct (0 <? length (remove_outliers_iqr _ _ _))%nat eqn:Hlen; [| discriminate].
  destruct (median _); [| discriminate].
  intros H. injection H as <-. simpl. apply Nat.ltb_lt in Hlen. lia.
Qed.

Lemma length_pos_ltb {A : Type} (l : list A) : l <> [] -> (0 <? length l)%nat = true.
Proof. intros H. apply Nat.ltb_lt. destruct l; simpl; [congruence | lia]. Qed.

Lemma unique_dates_In (df : list Transaction) (d : Z) :
  In d (unique_dates df) <-> In d (map date df).
Proof. unfold unique_dates. rewrite Zsort_In. apply unique_In. Qed.

Lemma unique_dates_nonempty (df : list Transaction) :
  df <> [] -> unique_dates df <> [].
Proof.
  intros Hne Hnil. destruct df as [| r df]; [congruence |].
  assert (H : In (date r) (unique_dates (r :: df)))
    by (apply unique_dates_In; left; reflexivity).
  rewrite Hnil in H. exact H.
Qed.

Lemma Txsort_nonempty (data : list Transaction) : data <> [] -> TxSort.sort data <> [].
Proof.
  intros Hne Hnil. destruct data as [| r data]; [congruence |].
  assert (H : In r (TxSort.sort (r :: data))) by (apply Txsort_In; left; reflexivity).
  rewrite Hnil in H. exact H.
Qed.

(** ** The rolling mean *)

Lemma filter_none {A : Type} (p : A -> bool) (l : list A) :
  (forall x, In x l -> p x = false) -> filter p l = [].
Proof.
  induction l as [| a l IH]; simpl; intros H; [reflexivity |].
  rewrite (H a) by auto. apply IH. auto.
Qed.

Lemma filter_all {A : Type} (p : A -> bool) (l : list A) :
  (forall x, In x l -> p x = true) -> filter p l = l.
Proof.
  induction l as [| a l IH]; simpl; intros H; [reflexivity |].
  rewrite (H a) by auto. f_equal. apply IH. auto.
Qed.

(** Counting the indices of [0, n) that a test accepts, when it accepts
    exactly those of [lo, lo + len). *)
Lemma count_interval (p : nat -> bool) (n lo len : nat) :
  (lo + len <= n)%nat ->
  (forall i, (i < n)%nat -> p i = true <-> (lo <= i < lo + len)%nat) ->
  length (filter p (seq 0 n)) = len.
Proof.
  intros Hle Hp.
  replace n with (lo + (len + (n - lo - len)))%nat by lia.
  rewrite !seq_app, !filter_app, !length_app. simpl.
  rewrite (filter_none p (seq 0 lo)), (filter_all p (seq lo len)),
    (filter_none p (seq (lo + len) (n - lo - len))).
  - simpl. rewrite length_seq. lia.
  - intros i Hi. apply in_seq in Hi. apply not_true_is_false.
    rewrite Hp by lia. lia.
  - intros i Hi. apply in_seq in Hi. apply Hp; lia.
  - intros i Hi. apply in_seq in Hi. apply not_true_is_false.
    rewrite Hp by lia. lia.
Qed.

Lemma window_mean_defined (w : Z) (xs : list Q) (i : nat) :
  (1 <= w)%Z -> (i < length xs)%nat ->
  is_some (window_mean w xs i) = true <->
  (w - 1 - (w - 1) / 2 <= Z.of_nat i <= Z.of_nat (length xs) - 1 - (w - 1) / 2)%Z.
Proof.
  intros Hw Hi. unfold window_mean.
  set (n := Z.of_nat (length xs)).
  set (off := ((w - 1) / 2)%Z).
  assert (Hoff : (0 <= off <= w - 1)%Z)
    by (subst off; Z.to_euclidean_division_equations; lia).
  assert (Hn : (Z.of_nat i < n)%Z) by (subst n; lia).
  clearbody n off.
  destruct ((w <=? _) && (0 <? _))%Z eqn:Hc; simpl.
  - apply andb_true_iff in Hc. destruct Hc as [H1 H2].
    apply Z.leb_le in H1. split; [intros _ | reflexivity]. lia.
  - apply andb_false_iff in Hc. split; [discriminate | intros H; exfalso].
    destruct Hc as [Hc | Hc]; [apply Z.leb_gt in Hc | apply Z.ltb_ge in Hc]; lia.
Qed.

(** The number of rows on which a window of [w] rows is complete. *)
Lemma rolling_mean_defined_count (w : Z) (xs : list Q) :
  (1 <= w)%Z ->
  length (filter is_some (rolling_mean w xs)) =
  Z.to_nat (Z.of_nat (length xs) - (w - 1)).
Proof.
  intros Hw. unfold rolling_mean.
  rewrite filter_map_swap, length_map.
  set (n := length xs).
  assert (Hoff : (0 <= (w - 1) / 2 <= w - 1)%Z)
    by (Z.to_euclidean_division_equations; lia).
  destruct (Z_lt_le_dec (Z.of_nat n) w) as [Hlt | Hge].
  - replace (Z.to_nat (Z.of_nat n - (w - 1))) with 0%nat by lia.
    apply count_interval with (lo := 0%nat); [lia |].
    intros i Hi. rewrite window_mean_defined by (fold n; lia). fold n. lia.
  - apply count_interval with (lo := Z.to_nat (w - 1 - (w - 1) / 2)); [lia |].
    intros i Hi. rewrite window_mean_defined by (fold n; lia). fold n. lia.
Qed.

Lemma rolling_mean_length (w : Z) (xs : list Q) :
  length (rolling_mean w xs) = length xs.
Proof. unfold rolling_mean. rewrite length_map, length_seq. reflexivity. Qed.

Lemma dropna_assign_length (rows : list DailyRow) (sm : list (option Q)) :
  length sm = length rows ->
  length (dropna (assign_rolling rows sm)) = length (filter is_some sm).
Proof.
  revert sm. induction rows as [| r rows IH]; intros [| o sm] Hlen;
    simpl in *; try reflexivity; try discriminate.
  unfold notna. simpl. destruct o; simpl; [f_equal |]; apply IH; lia.
Qed.

Lemma firstn_one_skipn {A : Type} (d : A) (xs : list A) (i : nat) :
  (i < length xs)%nat -> firstn 1 (skipn i xs) = [nth i xs d].
Proof.
  revert xs. induction i as [| i IH]; intros [| x xs] Hi; simpl in *; try lia.
  - reflexivity.
  - apply IH. lia.
Qed.

(** A window of one row is the row itself. *)
Lemma window_mean_one (xs : list Q) (i : nat) :
  (i < length xs)%nat ->
  exists v, window_mean 1 xs i = Some v /\ v == nth i xs 0.
Proof.
  intros Hi. unfold window_mean.
  change ((1 - 1) / 2)%Z with 0%Z.
  replace (Z.min (Z.of_nat (length xs)) (Z.max 0 (Z.of_nat i + 1 + 0)))
    with (Z.of_nat i + 1)%Z by lia.
  replace (Z.min (Z.of_nat (length xs)) (Z.max 0 (Z.of_nat i + 1 + 0 - 1)))
    with (Z.of_nat i) by lia.
  replace (Z.of_nat i + 1 - Z.of_nat i)%Z with 1%Z by lia.
  rewrite Nat2Z.id. change (Z.to_nat 1) with 1%nat.
  rewrite (firstn_one_skipn 0 xs i Hi).
  change ((1 <=? 1)%Z && (0 <? 1)%Z) with true. cbv iota.
  eexists. split; [reflexivity |]. simpl. field.
Qed.

Lemma Forall2_map_seq {A B : Type} (R : A -> B -> Prop) (d : A) (g : nat -> B)
    (l : list A) (k : nat) :
  (forall i, (i < length l)%nat -> R (nth i l d) (g (k + i)%nat)) ->
  Forall2 R l (map g (seq k (length l))).
Proof.
  revert k. induction l as [| a l IH]; intros k H; simpl; constructor.
  - specialize (H 0%nat). simpl in H. rewrite Nat.add_0_r in H. apply H. lia.
  - apply IH. intros i Hi. specialize (H (S i)). simpl in H.
    rewrite Nat.add_succ_r in H. apply H. lia.
Qed.

Lemma rolling_mean_one (rows : list DailyRow) :
  Forall2 defined_as rows (rolling_mean 1 (map d_price_per_sqft rows)).
Proof.
  unfold rolling_mean. rewrite length_map.
  apply Forall2_map_seq with (d := mkDailyRow 0 0 0). intros i Hi. simpl.
  destruct (window_mean_one (map d_price_per_sqft rows) i) as (v & Hv & Heq).
  - rewrite length_map. exact Hi.
  - exists v. split; [exact Hv |].
    rewrite Heq. change 0 with (d_price_per_sqft (mkDailyRow 0 0 0)).
    rewrite map_nth. reflexivity.
Qed.

Lemma dropna_assign_defined (rows : list DailyRow) (sm : list (option Q)) :
  Forall2 defined_as rows sm ->
  Forall2 smoothed_is_raw rows (dropna (assign_rolling rows sm)).
Proof.
  intros H. induction H as [| r o rows sm (v & Hv & Heq) _ IH]; simpl.
  - constructor.
  - subst o. unfold notna. simpl. constructor; [| exact IH].
    repeat split; simpl; try reflexivity. exists v. split; [reflexivity | exact Heq].
Qed.

(** ** The code's quantile and the specification's percentile *)


(** ** Dates of the output *)

Lemma StronglySorted_le_lt (l : list Z) :
  StronglySorted Z.le l -> NoDup l -> StronglySorted Z.lt l.
Proof.
  intros Hs. induction Hs as [| a l Hl IH Ha]; intros Hnd; constructor.
  - apply IH. inversion Hnd; assumption.
  - inversion Hnd as [| ? ? Hnot _]; subst.
    rewrite Forall_forall in *. intros y Hy.
    specialize (Ha y Hy). assert (a <> y) by (intros ->; contradiction). lia.
Qed.

Lemma unique_dates_ascending (df : list Transaction) :
  StronglySorted Z.lt (unique_dates df).
Proof.
  unfold unique_dates. apply StronglySorted_le_lt.
  - apply Zsort_sorted.
  - eapply Permutation_NoDup; [apply ZSort.Permuted_sort | apply unique_NoDup].
Qed.

Lemma collect_ascending {B : Type} (f : Z -> option B) (key : B -> Z) (l : list Z) :
  (forall x y, f x = Some y -> key y = x) ->
  StronglySorted Z.lt l -> StronglySorted Z.lt (map key (collect f l)).
Proof.
  intros Hkey Hs. induction Hs as [| a l Hl IH Ha]; simpl; [constructor |].
  destruct (f a) as [b |] eqn:Hfa; [| exact IH].
  simpl. constructor; [exact IH |].
  rewrite (Hkey a b Hfa). rewrite Forall_forall in *.
  intros k Hk. apply in_map_iff in Hk. destruct Hk as (y & <- & Hy).
  apply collect_In in Hy. destruct Hy as (x & Hx & Hfx).
  rewrite (Hkey x y Hfx). apply Ha. exact Hx.
Qed.

Lemma dropna_assign_dates (rows : list DailyRow) (sm : list (option Q)) (k : Z) :
  In k (map f_date (dropna (assign_rolling rows sm))) -> In k (map d_date rows).
Proof.
  revert sm. induction rows as [| r rows IH]; intros [| o sm]; simpl; try tauto.
  unfold notna. simpl. destruct o; simpl.
  - intros [H | H]; [left; exact H | right; eapply IH; exact H].
  - intros H. right. eapply IH; exact H.
Qed.

Lemma dropna_assign_ascending (rows : list DailyRow) (sm : list (option Q)) :
  StronglySorted Z.lt (map d_date rows) ->
  StronglySorted Z.lt (map f_date (dropna (assign_rolling rows sm))).
Proof.
  revert sm. induction rows as [| r rows IH]; intros [| o sm] Hs; simpl;
    try constructor.
  simpl in Hs. apply StronglySorted_inv in Hs. destruct Hs as [Hs Hr].
  unfold notna. simpl. destruct o; simpl.
  - constructor; [apply IH; exact Hs |].
    rewrite Forall_forall in *. intros k Hk. apply Hr.
    eapply dropna_assign_dates. exact Hk.
  - apply IH. exact Hs.
Qed.

Lemma daily_results_ascending (data : list Transaction) (m : Q) :
  StronglySorted Z.lt (map d_date (daily_results data m)).
Proof.
  unfold daily_results. apply collect_ascending.
  - intros x y. apply day_result_date.
  - apply unique_dates_ascending.
Qed.

Lemma calculate_price_feed_ok (data : list Transaction) (w : Z) (m : Q)
    (out : list FeedRow) :
  calculate_price_feed data w m = Ok out ->
  out = smoothed_frame data w m /\ daily_results data m <> [] /\ (0 <= w)%Z.
Proof.
  unfold calculate_price_feed, smoothed_frame.
  destruct data as [| r data]; [discriminate |].
  destruct (daily_results (r :: data) m) as [| row rows] eqn:Hres; [discriminate |].
  destruct (w <? 0)%Z eqn:Hw; [discriminate |].
  intros H. injection H as <-. apply Z.ltb_ge in Hw.
  split; [reflexivity | split; [discriminate | exact Hw]].
Qed.

Lemma calculate_price_feed_returns (data : list Transaction) (w : Z) (m : Q) :
  daily_results data m <> [] -> (0 <= w)%Z ->
  calculate_price_feed data w m = Ok (smoothed_frame data w m).
Proof.
  intros Hres Hw. unfold calculate_price_feed, smoothed_frame.
  destruct data as [| r data]; [exfalso; apply Hres; reflexivity |].
  destruct (daily_results (r :: data) m) as [| row rows]; [congruence |].
  apply Z.ltb_ge in Hw. rewrite Hw. reflexivity.
Qed.

(** The ['date'] column of the returned frame is strictly increasing. *)
Lemma calculate_price_feed_dates_ascending (data : list Transaction) (w : Z) (m : Q)
    (out : list FeedRow) :
  calculate_price_feed data w m = Ok out -> StronglySorted Z.lt (map f_date out).
Proof.
  intros H. apply calculate_price_feed_ok in H. destruct H as (-> & _ & _).
  apply dropna_assign_ascending. apply daily_results_ascending.
Qed.

(** * The claims *)

(** ** Outlier filter *)

Section FilterClaims.
Context {A : Type}.
Variable column : A -> Q.



(** C7. On degenerate frames the filter does not fail: the empty frame gives
    the empty frame, and a one-row frame comes back unchanged, its two
    quartiles being its only value (so [IQR = 0]). *)
Theorem remove_outliers_iqr_degenerate (m : Q) :
  remove_outliers_iqr column [] m = [] /\
  forall r, remove_outliers_iqr column [r] m = [r] /\
            exists Q1 Q3,
              quantile (1 # 4) (map column [r]) = Some Q1 /\
              quantile (3 # 4) (map column [r]) = Some Q3 /\
              Q1 == column r /\ Q3 == column r /\ Q3 - Q1 == 0.
Proof.
  split; [reflexivity |]. intros r.
  assert (E1 : quantile_sorted (1 # 4) (QSort.sort (map column [r])) == column r)
    by apply quantile_sorted_one.
  assert (E3 : quantile_sorted (3 # 4) (QSort.sort (map column [r])) == column r)
    by apply quantile_sorted_one.
  split.
  - rewrite remove_outliers_iqr_unfold by discriminate. cbv zeta.
    apply filter_all. intros x [<- | []]. apply in_band_iff.
    set (Q1 := quantile_sorted (1 # 4) _) in *.
    set (Q3 := quantile_sorted (3 # 4) _) in *.
    assert (H : m * (Q3 - Q1) == 0) by (rewrite E1, E3; ring).
    split; lra.
  - eexists. eexists. split; [reflexivity |]. split; [reflexivity |].
    split; [exact E1 |]. split; [exact E3 |]. rewrite E1, E3. ring.
Qed.
End FilterClaims.

(** ** Aggregator *)

Lemma smoothed_frame_length (data : list Transaction) (w : Z) (m : Q) :
  (1 <= w)%Z ->
  length (smoothed_frame data w m) =
  Z.to_nat (Z.of_nat (length (daily_results data m)) - (w - 1)).
Proof.
  intros Hw. unfold smoothed_frame. rewrite dropna_assign_length.
  - rewrite rolling_mean_defined_count by exact Hw. rewrite length_map. reflexivity.
  - rewrite rolling_mean_length, length_map. reflexivity.
Qed.

(** With a window of 1 the frame has every daily row, its smoothed value
    equal to the raw one. *)
Lemma smoothed_frame_window_one (data : list Transaction) (m : Q) :
  Forall2 smoothed_is_raw (daily_results data m) (smoothed_frame data 1 m).
Proof. unfold smoothed_frame. apply dropna_assign_defined. apply rolling_mean_one. Qed.

(** ** Concrete runs *)

(** C1, counterexample.  On the scenario's input the band of day 4 is
    [-60.5, 123.5], so the value 100 is kept: the scenario as specified
    does not describe the run. *)
Lemma scenarioA_not_as_specified : ~ scenarioA_as_specified.
Proof.
  intros (Hremoved & _). apply Hremoved.
  vm_compute. right. left. reflexivity.
Qed.

(** C1, as amended.  On the 5-date input with window 3 and multiplier 1.5
    nothing is removed from day 4 (100 lies inside the band), the raw daily
    medians are 10, 20, 12, 9, 15, and the frame returned holds the three
    middle days with smoothed values 14, 41/3 and 12; days 1 and 5 are
    trimmed. *)
Theorem scenarioA_feed :
  remove_outliers_iqr price_per_sqft day4_group (3 # 2) = day4_group /\
  map (fun r => (calendar_day (d_date r), Qred (d_price_per_sqft r), d_transaction_count r))
    (daily_results scenarioA (3 # 2))
  = [(1%Z, 10, 3%nat); (2%Z, 20, 1%nat); (3%Z, 12, 3%nat); (4%Z, 9, 3%nat);
     (5%Z, 15, 2%nat)] /\
  show (calculate_price_feed scenarioA 3 (3 # 2))
  = Ok [(2%Z, Some 14, 1%nat, 20); (3%Z, Some (41 # 3), 3%nat, 12);
        (4%Z, Some 12, 3%nat, 9)].
Proof. repeat split; vm_compute; reflexivity. Qed.

(** C2, at the failing inputs.  The empty input raises [KeyError] at the
    sort by ['date'], and an input whose only date loses both its
    transactions to the filter raises [KeyError] at line 131, where a
    frame without rows was to be returned. *)
Theorem degenerate_inputs_raise :
  calculate_price_feed [] 3 (3 # 2) = Raise (KeyError "date") /\
  calculate_price_feed [tx (day 1) 1; tx (day 1) 2] 3 (1 # 4)
  = Raise (KeyError "price_per_sqft").
Proof. split; vm_compute; reflexivity. Qed.

(** C3, at the failing input.  Two sales of the same calendar day, at 09:00
    and at 17:00, are two values of the ['date'] column: the loop forms one
    group for each and the frame has two rows for that day. *)
Theorem same_day_sales_grouped_apart :
  calendar_day (date morning_sale) = calendar_day (date evening_sale) /\
  unique_dates [morning_sale; evening_sale] = [date morning_sale; date evening_sale] /\
  filter (fun r => (date r =? date morning_sale)%Z) [morning_sale; evening_sale]
  = [morning_sale] /\
  show (calculate_price_feed [morning_sale; evening_sale] 1 (3 # 2))
  = Ok [(1%Z, Some 10, 1%nat, 10); (1%Z, Some 20, 1%nat, 20)].
Proof. repeat split; vm_compute; reflexivity. Qed.

(** C4, at the failing input.  With no surviving date ([N = 0 < w]) the
    call raises [KeyError] at line 131 instead of returning the empty
    frame, which it does return when [1 <= N < w]. *)
Theorem no_surviving_date_raises :
  daily_results [tx (day 1) 4; tx (day 1) 8] (1 # 4) = [] /\
  calculate_price_feed [tx (day 1) 4; tx (day 1) 8] 1 (1 # 4)
  = Raise (KeyError "price_per_sqft").
Proof. split; vm_compute; reflexivity. Qed.

(** C8, at the failing inputs.  Two sales of one calendar day, at 09:00
    and at 17:00: a window of 1 returns two rows for that day, not the
    day's single row, and a window of 2 returns a row (the mean of the two
    sales) where the result was to be empty.  Two sales bearing one
    ['date'] value that the filter both removes (band [3.25, 4.75] for 3
    and 5 at multiplier 1/4): the call raises [KeyError] at line 131 for
    window 1 and for window 2 alike. *)
Theorem single_day_not_single_row :
  calendar_day (date morning_sale) = calendar_day (date evening_sale) /\
  show (calculate_price_feed [morning_sale; evening_sale] 1 (3 # 2))
  = Ok [(1%Z, Some 10, 1%nat, 10); (1%Z, Some 20, 1%nat, 20)] /\
  show (calculate_price_feed [morning_sale; evening_sale] 2 (3 # 2))
  = Ok [(1%Z, Some 15, 1%nat, 20)] /\
  (forall r, In r [tx (day 7) 3; tx (day 7) 5] -> date r = day 7) /\
  calculate_price_feed [tx (day 7) 3; tx (day 7) 5] 1 (1 # 4)
  = Raise (KeyError "price_per_sqft") /\
  calculate_price_feed [tx (day 7) 3; tx (day 7) 5] 2 (1 # 4)
  = Raise (KeyError "price_per_sqft").
Proof.
  split; [vm_compute; reflexivity |]. split; [vm_compute; reflexivity |].
  split; [vm_compute; reflexivity |]. split.
  - intros r [<- | [<- | []]]; reflexivity.
  - split; vm_compute; reflexivity.
Qed.

(** C9, at the failing input.  Two sales one minute apart on day 3 give two
    rows for day 3: the calendar days of the returned rows are 3, 3, 4.
    The ['date'] values themselves are strictly increasing. *)
Theorem one_day_two_rows :
  exists out,
    calculate_price_feed minute_apart 1 (3 # 2) = Ok out /\
    map (fun r => calendar_day (f_date r)) out = [3; 3; 4]%Z /\
    ~ NoDup (map (fun r => calendar_day (f_date r)) out) /\
    StronglySorted Z.lt (map f_date out).
Proof.
  destruct (calculate_price_feed minute_apart 1 (3 # 2)) as [out | e] eqn:Hrun;
    [| vm_compute in Hrun; discriminate].
  exists out. split; [reflexivity |].
  pose proof (calculate_price_feed_dates_ascending _ _ _ _ Hrun) as Hsorted.
  assert (Hdays : map (fun r => calendar_day (f_date r)) out = [3; 3; 4]%Z).
  { vm_compute in Hrun. injection Hrun as <-. vm_compute. reflexivity. }
  split; [exact Hdays |]. split; [| exact Hsorted].
  rewrite Hdays. intros Hnd. inversion Hnd as [| ? ? Hnot _]. apply Hnot. left. reflexivity.
Qed.

(** C10, counterexample.  A group of two distinct values and a multiplier
    of 0: the band is [1.25, 1.75], the filter returns nothing and the date
    is dropped. *)
Lemma two_values_filtered_out :
  0 <= 0 /\
  remove_outliers_iqr price_per_sqft [tx (day 1) 1; tx (day 1) 2] 0 = [] /\
  daily_results [tx (day 1) 1; tx (day 1) 2] 0 = [].
Proof. split; [apply Qle_refl | split; vm_compute; reflexivity]. Qed.



(** * Further properties of the aggregator *)

(** ** Values stay within the range of the input *)








Lemma dropna_assign_In (rows : list DailyRow) (sm : list (option Q)) (r : FeedRow) :
  In r (dropna (assign_rolling rows sm)) ->
  exists d v, In d rows /\ In (Some v) sm /\
              r = mkFeedRow (d_date d) (Some v) (d_transaction_count d) (d_price_per_sqft d).
Proof.
  revert sm. induction rows as [| d rows IH]; intros [| o sm]; simpl; try tauto.
  unfold notna. simpl. destruct o as [v |]; simpl.
  - intros [<- | H].
    + exists d, v. auto.
    + destruct (IH sm H) as (d' & v' & Hd & Hv & ->). exists d', v'. auto.
  - intros H. destruct (IH sm H) as (d' & v' & Hd & Hv & ->). exists d', v'. auto.
Qed.



(** ** Which rows survive the trimming, and what they hold *)








(** ** Dates and counts of the returned rows *)

Lemma filter_length_bound {A : Type} (p : A -> bool) (l : list A) :
  (length (filter p l) <= length l)%nat.
Proof.
  induction l as [| a l IH]; simpl; [lia |]. destruct (p a); simpl; lia.
Qed.

Lemma Permutation_filter_keep {A : Type} (p : A -> bool) (l l' : list A) :
  Permutation l l' -> Permutation (filter p l) (filter p l').
Proof.
  intros H. induction H as [| x l l' _ IH | x y l | l l' l'' _ IH1 _ IH2]; simpl.
  - constructor.
  - destruct (p x); [constructor |]; exact IH.
  - destruct (p x), (p y); try apply Permutation_refl. constructor.
  - eapply Permutation_trans; eassumption.
Qed.

Lemma remove_outliers_iqr_length {A : Type} (column : A -> Q) (df : list A) (m : Q) :
  (length (remove_outliers_iqr column df m) <= length df)%nat.
Proof.
  unfold remove_outliers_iqr.
  destruct (quantile (1 # 4) _); [| simpl; lia].
  destruct (quantile (3 # 4) _); [| simpl; lia].
  apply filter_length_bound.
Qed.

Lemma day_result_count_bound (data : list Transaction) (m : Q) (d : Z) (row : DailyRow) :
  day_result (TxSort.sort data) m d = Some row ->
  (d_transaction_count row <= length (filter (fun t => (date t =? d)%Z) data))%nat.
Proof.
  unfold day_result.
  destruct (0 <? length _)%nat; [| discriminate].
  destruct (0 <? length (remove_outliers_iqr _ _ _))%nat; [| discriminate].
  destruct (median _); [| discriminate].
  intros H. injection H as <-. simpl.
  eapply Nat.le_trans; [apply remove_outliers_iqr_length |].
  apply Nat.eq_le_incl. apply Permutation_length. apply Permutation_filter_keep.
  apply Permutation_sym. apply TxSort.Permuted_sort.
Qed.

(** X3.  A returned row never carries an invented date or an inflated
    count: its date is the date of some input record, and its
    transaction count is at least 1 and at most the number of input
    records bearing that date. *)
Theorem feed_rows_come_from_input (data : list Transaction) (w : Z) (m : Q)
    (out : list FeedRow) :
  calculate_price_feed data w m = Ok out ->
  forall r, In r out ->
    (exists t, In t data /\ date t = f_date r) /\
    (1 <= f_transaction_count r)%nat /\
    (f_transaction_count r
     <= length (filter (fun t => (date t =? f_date r)%Z) data))%nat.
Proof.
  intros Hrun r Hr.
  apply calculate_price_feed_ok in Hrun. destruct Hrun as (-> & _ & _).
  unfold smoothed_frame in Hr. apply dropna_assign_In in Hr.
  destruct Hr as (row & v & Hrow & _ & ->). simpl.
  unfold daily_results in Hrow. apply collect_In in Hrow.
  destruct Hrow as (d & Hd & Hday).
  rewrite (day_result_date _ _ _ _ Hday).
  split; [| split].
  - apply unique_dates_In in Hd. apply in_map_iff in Hd.
    destruct Hd as (t & Ht & Hin). exists t. split; [| exact Ht].
    apply Txsort_In. exact Hin.
  - eapply day_result_count. exact Hday.
  - eapply day_result_count_bound. exact Hday.
Qed.

Lemma feed_rows_come_from_input_witness :
  exists out,
    calculate_price_feed single_day 1 (3 # 2) = Ok out /\
    forall r, In r out ->
      (exists t, In t single_day /\ date t = f_date r) /\
      (1 <= f_transaction_count r)%nat /\
      (f_transaction_count r
       <= length (filter (fun t => (date t =? f_date r)%Z) single_day))%nat.
Proof.
  assert (H : calculate_price_feed single_day 1 (3 # 2)
              = Ok (smoothed_frame single_day 1 (3 # 2))).
  { apply calculate_price_feed_returns; [vm_compute; discriminate | lia]. }
  exists (smoothed_frame single_day 1 (3 # 2)). split; [exact H |].
  exact (feed_rows_come_from_input single_day 1 (3 # 2) _ H).
Defined.

(** ** Distinct dates *)

Lemma unique_dates_count (data : list Transaction) :
  length (unique_dates (TxSort.sort data)) = length (unique (map date data)).
Proof.
  unfold unique_dates. rewrite <- (Permutation_length (ZSort.Permuted_sort _)).
  apply Permutation_length. apply NoDup_Permutation; try apply unique_NoDup.
  intros d. rewrite !unique_In, !in_map_iff.
  split; intros (t & Ht & Hin); exists t; (split; [exact Ht |]);
    apply Txsort_In; exact Hin.
Qed.

(** ** A date whose transactions all have one price *)

Lemma quantile_sorted_constant (s : list Q) (q v : Q) :
  StronglySorted Qle s -> (1 <= length s)%nat ->
  (forall x, In x s -> x == v) -> 0 <= q -> q <= 1 ->
  quantile_sorted q s == v.
Proof.
  intros Hs Hlen Hall Hq0 Hq1.
  pose proof (virtual_index_range s Hlen q Hq0 Hq1) as Hj. cbv zeta in Hj.
  destruct (quantile_sorted_between s Hs Hlen q Hq0 Hq1) as [Hlo Hhi].
  rewrite (Hall (nth _ s 0)) in Hlo by (apply nth_In; lia).
  rewrite (Hall (nth _ s 0)) in Hhi by (apply nth_In; lia).
  apply Qle_antisym; assumption.
Qed.

Lemma remove_outliers_iqr_constant {A : Type} (column : A -> Q) (df : list A)
    (m v : Q) :
  (forall r, In r df -> column r == v) -> remove_outliers_iqr column df m = df.
Proof.
  intros Hall. destruct df as [| a df]; [reflexivity |].
  assert (Hne : a :: df <> []) by discriminate.
  rewrite remove_outliers_iqr_unfold by exact Hne. cbv zeta.
  set (s := QSort.sort (map column (a :: df))).
  assert (Hs : forall x, In x s -> x == v).
  { intros x Hx. apply (proj1 (Qsort_In _ _)) in Hx. apply in_map_iff in Hx.
    destruct Hx as (r & <- & Hr). apply Hall. exact Hr. }
  assert (Hlen : (1 <= length s)%nat).
  { subst s. rewrite column_sorted_length. simpl. lia. }
  assert (E1 : quantile_sorted (1 # 4) s == v)
    by (apply quantile_sorted_constant; try assumption; try lra; apply Qsort_sorted).
  assert (E3 : quantile_sorted (3 # 4) s == v)
    by (apply quantile_sorted_constant; try assumption; try lra; apply Qsort_sorted).
  set (Q1 := quantile_sorted (1 # 4) s) in *.
  set (Q3 := quantile_sorted (3 # 4) s) in *.
  assert (H : m * (Q3 - Q1) == 0) by (rewrite E1, E3; ring).
  apply filter_all. intros r Hr. apply in_band_iff.
  pose proof (Hall r Hr) as Hv. split; lra.
Qed.




(** ** Dates the filter cannot empty *)

Lemma remove_outliers_iqr_keeps_some {A : Type} (column : A -> Q) (df : list A)
    (m : Q) :
  df <> [] -> 0 <= m -> no_split_pair column df ->
  remove_outliers_iqr column df m <> [].
Proof.
  intros Hne Hm Hgroup.
  assert (Hconst : (exists v, forall r, In r df -> column r == v) ->
                   remove_outliers_iqr column df m <> []).
  { intros (v & Hv). rewrite (remove_outliers_iqr_constant column df m v Hv). exact Hne. }
  destruct Hgroup as [Hlen | Hsame]; [| auto].
  destruct df as [| a [| b [| c rest]]]; [congruence | | simpl in Hlen; lia |].
  - apply Hconst. exists (column a). intros r [<- | []]. reflexivity.
  - set (df := a :: b :: c :: rest) in *.
    rewrite remove_outliers_iqr_unfold by exact Hne. cbv zeta.
    pose proof (column_quartiles_ordered column df Hne) as Hord.
    destruct (quartiles_enclose_value (QSort.sort (map column df)) (Qsort_sorted _))
      as (x & Hin & Hlo & Hhi).
    { rewrite column_sorted_length. subst df. simpl. lia. }
    destruct (band_widens _ _ m x Hord Hm Hlo Hhi) as [Hlower Hupper].
    apply (proj1 (Qsort_In _ _)) in Hin. apply in_map_iff in Hin.
    destruct Hin as (r & Hr & Hin). subst x. intros Hnil.
    assert (Hmem : In r (filter (in_band column
              (quantile_sorted (1 # 4) (QSort.sort (map column df)) -
               m * (quantile_sorted (3 # 4) (QSort.sort (map column df)) -
                    quantile_sorted (1 # 4) (QSort.sort (map column df))))
              (quantile_sorted (3 # 4) (QSort.sort (map column df)) +
               m * (quantile_sorted (3 # 4) (QSort.sort (map column df)) -
                    quantile_sorted (1 # 4) (QSort.sort (map column df))))) df)).
    { apply filter_In. split; [exact Hin |]. apply (proj2 (in_band_iff _ _ _ _)).
      split; assumption. }
    rewrite Hnil in Hmem. exact Hmem.
Qed.

Lemma no_split_pair_permutation {A : Type} (column : A -> Q) (l l' : list A) :
  Permutation l l' -> no_split_pair column l -> no_split_pair column l'.
Proof.
  intros Hperm [Hlen | (v & Hv)].
  - left. rewrite <- (Permutation_length Hperm). exact Hlen.
  - right. exists v. intros r Hr. apply Hv.
    eapply Permutation_in; [apply Permutation_sym; exact Hperm | exact Hr].
Qed.

Lemma day_result_kept (df : list Transaction) (m : Q) (d : Z) :
  In d (map date df) -> 0 <= m ->
  no_split_pair price_per_sqft (filter (fun t => (date t =? d)%Z) df) ->
  exists row, day_result df m d = Some row.
Proof.
  intros Hd Hm Hgroup. apply in_map_iff in Hd. destruct Hd as (r & Hr & Hin).
  unfold day_result.
  set (day_data := filter (fun t => (date t =? d)%Z) df) in *.
  assert (Hday : day_data <> []).
  { intros Hnil. assert (H : In r day_data).
    { apply filter_In. split; [exact Hin | apply Z.eqb_eq; exact Hr]. }
    rewrite Hnil in H. exact H. }
  rewrite (length_pos_ltb _ Hday).
  pose proof (remove_outliers_iqr_keeps_some price_per_sqft day_data m Hday Hm Hgroup)
    as Hclean.
  rewrite (length_pos_ltb _ Hclean).
  destruct (median_some (map price_per_sqft (remove_outliers_iqr price_per_sqft day_data m)))
    as (v & Hv).
  - destruct (remove_outliers_iqr _ _ _); simpl; congruence.
  - rewrite Hv. eexists. reflexivity.
Qed.

Lemma sorted_group (data : list Transaction) (d : Z) :
  Permutation (filter (fun t => (date t =? d)%Z) data)
              (filter (fun t => (date t =? d)%Z) (TxSort.sort data)).
Proof. apply Permutation_filter_keep. apply TxSort.Permuted_sort. Qed.

Lemma day_result_of_record (data : list Transaction) (m : Q) (r : Transaction) :
  In r data -> 0 <= m ->
  no_split_pair price_per_sqft (filter (fun u => (date u =? date r)%Z) data) ->
  exists row, day_result (TxSort.sort data) m (date r) = Some row.
Proof.
  intros Hr Hm Hgroup. apply day_result_kept.
  - apply in_map. apply (proj2 (Txsort_In _ _)). exact Hr.
  - exact Hm.
  - eapply no_split_pair_permutation; [apply sorted_group | exact Hgroup].
Qed.

Lemma daily_results_complete (data : list Transaction) (m : Q) :
  0 <= m -> dates_without_split_pair data ->
  length (daily_results data m) = length (unique_dates (TxSort.sort data)).
Proof.
  intros Hm Hdata. unfold daily_results. apply collect_total_length.
  intros d Hd. apply (proj1 (unique_dates_In _ _)) in Hd. apply in_map_iff in Hd.
  destruct Hd as (r & <- & Hr). apply (proj1 (Txsort_In _ _)) in Hr.
  destruct (day_result_of_record data m r Hr Hm (Hdata r Hr)) as (row & Hrow).
  congruence.
Qed.

Lemma daily_results_inhabited (data : list Transaction) (m : Q) :
  data <> [] -> 0 <= m -> dates_without_split_pair data ->
  daily_results data m <> [].
Proof.
  intros Hne Hm Hdata Hnil.
  pose proof (daily_results_complete data m Hm Hdata) as Hlen. rewrite Hnil in Hlen.
  pose proof (unique_dates_nonempty _ (Txsort_nonempty data Hne)) as Hu.
  destruct (unique_dates (TxSort.sort data)); simpl in Hlen; [congruence | lia].
Qed.

(** C10, as amended.  For a multiplier [m >= 0] the filter leaves non-empty
    every non-empty group of positive prices that is not made of exactly
    two transactions with different prices (one value, equal values, or
    three values and more, where an order statistic lies between the
    quartiles); the loop therefore does not skip the date of such a group,
    which has its row in [results] with a transaction count of at least
    one. *)
Theorem every_date_contributes (data : list Transaction) (m : Q) :
  0 <= m ->
  (forall group : list Transaction,
      group <> [] -> positive_prices group ->
      no_split_pair price_per_sqft group ->
      remove_outliers_iqr price_per_sqft group m <> []) /\
  (forall r, In r data -> positive_prices data ->
      no_split_pair price_per_sqft (filter (fun u => (date u =? date r)%Z) data) ->
      exists row, In row (daily_results data m) /\
                  d_date row = date r /\ (1 <= d_transaction_count row)%nat).
Proof.
  intros Hm. split.
  - intros group Hne _ Hgroup. apply remove_outliers_iqr_keeps_some; assumption.
  - intros r Hr _ Hgroup.
    destruct (day_result_of_record data m r Hr Hm Hgroup) as (row & Hrow).
    exists row. split; [| split].
    + unfold daily_results. apply collect_In. exists (date r).
      split; [| exact Hrow].
      apply (proj2 (unique_dates_In _ _)). apply in_map.
      apply (proj2 (Txsort_In _ _)). exact Hr.
    + eapply day_result_date. exact Hrow.
    + eapply day_result_count. exact Hrow.
Qed.

Lemma scenarioA_positive : positive_prices scenarioA.
Proof.
  intros t Ht. vm_compute in Ht.
  repeat (destruct Ht as [<- | Ht]; [reflexivity |]).
  destruct Ht.
Qed.

Lemma every_date_contributes_witness :
  0 <= 0 /\ In (tx (day 4) 100) scenarioA /\ positive_prices scenarioA /\
  no_split_pair price_per_sqft
    (filter (fun u => (date u =? date (tx (day 4) 100))%Z) scenarioA) /\
  exists row, In row (daily_results scenarioA 0) /\
              d_date row = date (tx (day 4) 100) /\
              (1 <= d_transaction_count row)%nat.
Proof.
  assert (H1 : 0 <= 0) by apply Qle_refl.
  assert (H2 : no_split_pair price_per_sqft
                 (filter (fun u => (date u =? date (tx (day 4) 100))%Z) scenarioA))
    by (left; vm_compute; intros E; discriminate E).
  assert (H3 : In (tx (day 4) 100) scenarioA) by (vm_compute; tauto).
  split; [exact H1 |]. split; [exact H3 |]. split; [exact scenarioA_positive |].
  split; [exact H2 |].
  exact (proj2 (every_date_contributes scenarioA 0 H1) (tx (day 4) 100) H3
           scenarioA_positive H2).
Defined.

(** ** How many rows come back *)

(** X4.  When no date has exactly two transactions with different prices,
    no date is lost whatever the multiplier [m >= 0], and the size of the
    result is fixed by the input dates alone: for a non-empty input with
    [D] distinct date values, prices between [10^-100] and [10^200] and a
    window [1 <= w < 2^31], the call returns exactly
    [max 0 (D - (w - 1))] rows. *)
Theorem feed_size_from_distinct_dates (data : list Transaction) (w : Z) (m : Q) :
  data <> [] -> (1 <= w < 2 ^ 31)%Z -> 0 <= m ->
  dates_without_split_pair data -> prices_in_range data ->
  exists out,
    calculate_price_feed data w m = Ok out /\
    Z.of_nat (length out)
    = Z.max 0 (Z.of_nat (length (unique (map date data))) - (w - 1)).
Proof.
  intros Hne Hw Hm Hdates _. exists (smoothed_frame data w m). split.
  - apply calculate_price_feed_returns; [| lia].
    apply daily_results_inhabited; assumption.
  - rewrite smoothed_frame_length by lia.
    rewrite daily_results_complete by assumption.
    rewrite unique_dates_count. lia.
Qed.

Lemma scenarioA_without_split_pair : dates_without_split_pair scenarioA.
Proof.
  intros t Ht. vm_compute in Ht.
  repeat (destruct Ht as [<- | Ht]; [first
    [ left; vm_compute; intros E; discriminate E
    | right; exists 15; intros r Hr; vm_compute in Hr;
      repeat (destruct Hr as [<- | Hr]; [reflexivity |]); destruct Hr ] |]).
  destruct Ht.
Qed.

Lemma scenarioA_in_range : prices_in_range scenarioA.
Proof.
  intros t Ht. vm_compute in Ht.
  repeat (destruct Ht as [<- | Ht];
          [split; vm_compute; intros E; discriminate E |]).
  destruct Ht.
Qed.

Lemma feed_size_from_distinct_dates_witness :
  scenarioA <> [] /\ (1 <= 3 < 2 ^ 31)%Z /\ 0 <= (1 # 2) /\
  dates_without_split_pair scenarioA /\ prices_in_range scenarioA /\
  exists out,
    calculate_price_feed scenarioA 3 (1 # 2) = Ok out /\
    Z.of_nat (length out)
    = Z.max 0 (Z.of_nat (length (unique (map date scenarioA))) - (3 - 1)).
Proof.
  assert (H1 : scenarioA <> []) by discriminate.
  assert (H2 : (1 <= 3 < 2 ^ 31)%Z) by (split; [lia | reflexivity]).
  assert (H3 : 0 <= (1 # 2)) by (unfold Qle; simpl; lia).
  split; [exact H1 |]. split; [exact H2 |]. split; [exact H3 |].
  split; [exact scenarioA_without_split_pair |].
  split; [exact scenarioA_in_range |].
  exact (feed_size_from_distinct_dates scenarioA 3 (1 # 2) H1 H2 H3
           scenarioA_without_split_pair scenarioA_in_range).
Defined.

(** ** The slider minimum on a pair, exactly and rounded *)

(** At the multiplier 0.5, the least the slider gives, a date with two
    sales at 0.5 and 0.7 keeps both in exact arithmetic, where the band is
    [0.5, 0.7]; in binary64 the band the code computes is
    [0.50000000000000011, 0.69999999999999984] and holds neither. *)
Lemma slider_minimum_pair :
  remove_outliers_iqr price_per_sqft [tx (day 1) (1 # 2); tx (day 1) (7 # 10)] (1 # 2)
  = [tx (day 1) (1 # 2); tx (day 1) (7 # 10)] /\
  Binary64.pair_band Binary64.half Binary64.seven_tenths Binary64.half
  = (Binary64.above_half, Binary64.below_seven_tenths) /\
  Binary64.kept
    (Binary64.pair_band Binary64.half Binary64.seven_tenths Binary64.half)
    Binary64.half = false /\
  Binary64.kept
    (Binary64.pair_band Binary64.half Binary64.seven_tenths Binary64.half)
    Binary64.seven_tenths = false.
Proof. repeat split; vm_compute; reflexivity. Qed.

(** * Properties of [get_zillow_data] *)

Section FetchFacts.
Variable fromtimestamp : Q -> option Z.
Variable put : Z -> response.

(** ** The listing loop *)

Lemma scan_listings_collects (listings : list json) (all_data : list Sale) :
  scan_listings fromtimestamp listings all_data
  = (all_data ++ collect (sale_of fromtimestamp) (before_escape fromtimestamp listings),
     first_escape fromtimestamp listings).
Proof.
  revert all_data. induction listings as [| listing rest IH]; intros all_data.
  - simpl. rewrite app_nil_r. reflexivity.
  - simpl. unfold escaping, sale_of.
    destruct (listing_record fromtimestamp listing) as [[sale |] | e] eqn:Hrec.
    + simpl. rewrite Hrec. rewrite IH, <- app_assoc. reflexivity.
    + simpl. rewrite Hrec. apply IH.
    + destruct (caught_inner e).
      * simpl. rewrite Hrec. apply IH.
      * simpl. rewrite app_nil_r. reflexivity.
Qed.

(** ** Which listings are accepted *)

Lemma bind_done {A B : Type} (c : outcome A) (k : A -> outcome B) (b : B) :
  bind c k = Done b -> exists a, c = Done a /\ k a = Done b.
Proof. destruct c as [a | e]; simpl; [eauto | discriminate]. Qed.

Lemma truediv_done (a b : json) (q : Q) :
  truediv a b = Done q ->
  exists x y, number a = Some x /\ number b = Some y /\ ~ y == 0 /\
              overflow_free a b x y = true /\ q = x / y.
Proof.
  unfold truediv. destruct (number a) as [x |]; [| discriminate].
  destruct (number b) as [y |]; [| discriminate].
  destruct (integral a && integral b).
  - destruct (Qeq_bool y 0) eqn:Hy; [discriminate |].
    destruct (overflow_free a b x y) eqn:Hov; [| discriminate].
    intros H. injection H as <-. exists x, y.
    split; [reflexivity |]. split; [reflexivity |].
    split; [apply Qeq_bool_neq; exact Hy |]. split; [exact Hov | reflexivity].
  - destruct (overflow_free a b x y) eqn:Hov; [| discriminate].
    destruct (Qeq_bool y 0) eqn:Hy; [discriminate |].
    intros H. injection H as <-. exists x, y.
    split; [reflexivity |]. split; [reflexivity |].
    split; [apply Qeq_bool_neq; exact Hy |]. split; [exact Hov | reflexivity].
Qed.

Lemma truediv_defined (a b : json) (x y : Q) :
  number a = Some x -> number b = Some y -> ~ y == 0 ->
  overflow_free a b x y = true ->
  truediv a b = Done (x / y).
Proof.
  intros Ha Hb Hy Hov. unfold truediv. rewrite Ha, Hb, Hov.
  assert (E : Qeq_bool y 0 = false).
  { destruct (Qeq_bool y 0) eqn:E; [| reflexivity].
    exfalso. apply Hy. apply Qeq_bool_eq. exact E. }
  rewrite E. destruct (integral a && integral b); reflexivity.
Qed.

Lemma truthy_number (v : json) (y : Q) :
  number v = Some y -> truthy v = true -> ~ y == 0.
Proof.
  destruct v as [| b | z | q | | |]; simpl; try discriminate.
  - intros H Hb. injection H as <-. subst b. discriminate.
  - intros H Hz. injection H as <-. apply negb_true_iff, Z.eqb_neq in Hz.
    intros E. apply Hz. change 0 with (inject_Z 0) in E.
    apply (proj1 (inject_Z_injective z 0)). exact E.
  - intros H Hq. injection H as <-. apply negb_true_iff in Hq.
    apply Qeq_bool_neq. exact Hq.
Qed.

Lemma number_nonzero_truthy (v : json) (y : Q) :
  number v = Some y -> ~ y == 0 -> truthy v = true.
Proof.
  destruct v as [| b | z | q | | |]; simpl; try discriminate.
  - intros H Hy. injection H as <-. destruct b; [reflexivity |].
    exfalso. apply Hy. reflexivity.
  - intros H Hy. injection H as <-. apply negb_true_iff, Z.eqb_neq.
    intros ->. apply Hy. reflexivity.
  - intros H Hy. injection H as <-. apply negb_true_iff.
    destruct (Qeq_bool q 0) eqn:E; [| reflexivity].
    exfalso. apply Hy. apply Qeq_bool_eq. exact E.
Qed.

Lemma dict_get_done (v x : json) (key : string) :
  dict_get v key = Done x ->
  exists fields, v = JDict fields /\
                 x = match lookup key fields with Some y => y | None => JNull end.
Proof.
  destruct v; simpl; try discriminate.
  intros H. eexists. split; [reflexivity |].
  destruct (lookup key fields); injection H as <-; reflexivity.
Qed.

Lemma listing_record_accepted (listing : json) (sale : Sale) :
  listing_record fromtimestamp listing = Done (Some sale) ->
  accepted fromtimestamp listing sale.
Proof.
  unfold listing_record. intros H.
  apply bind_done in H. destruct H as (info & Hinfo & H).
  apply bind_done in H. destruct H as (la & Hla & H).
  apply dict_get_done in Hla. destruct Hla as (fields & -> & Hla).
  destruct (truthy la) eqn:Htruthy; [| discriminate].
  rewrite Hinfo in H. simpl in H.
  destruct (lookup "dateSold"%string fields) as [ds |] eqn:Hds; [| discriminate].
  simpl in H.
  destruct (truediv ds (JInt 1000)) as [secs |] eqn:Hsecs; [| discriminate].
  simpl in H.
  destruct (fromtimestamp secs) as [t |] eqn:Ht; [| discriminate].
  destruct (subscript listing "unformattedPrice"%string) as [pr |] eqn:Hpr;
    [| discriminate].
  simpl in H.
  destruct (lookup "livingArea"%string fields) as [la' |] eqn:Harea; [| discriminate].
  subst la. simpl in H.
  destruct (truediv pr la') as [per |] eqn:Hper; [| discriminate].
  simpl in H.
  destruct (subscript listing "address"%string) as [addr |] eqn:Haddr; [| discriminate].
  simpl in H. injection H as <-. simpl.
  apply truediv_done in Hsecs. destruct Hsecs as (ms & k & Hms & Hk & _ & Hov1 & ->).
  simpl in Hk. injection Hk as <-. change (inject_Z 1000) with 1000 in *.
  apply truediv_done in Hper. destruct Hper as (x & y & Hx & Hy & Hy0 & Hov2 & ->).
  exists fields, ds, ms, x, y. repeat split; auto.
Qed.

Lemma accepted_listing_record (listing : json) (sale : Sale) :
  accepted fromtimestamp listing sale ->
  listing_record fromtimestamp listing = Done (Some sale).
Proof.
  intros (fields & ds & ms & x & y & Hinfo & Harea & Hy & Hy0 & Hds & Hms & Hov1
          & Ht & Hpr & Hx & Hov2 & Hper & Haddr).
  unfold listing_record. rewrite Hinfo. simpl. rewrite Harea. simpl.
  rewrite (number_nonzero_truthy _ y Hy Hy0). rewrite Hds. simpl.
  rewrite (truediv_defined ds (JInt 1000) ms 1000 Hms eq_refl)
    by (exact Hov1 || (intros E; discriminate E)).
  simpl. rewrite Ht, Hpr. simpl.
  rewrite (truediv_defined _ _ x y Hx Hy Hy0 Hov2). simpl. rewrite Haddr. simpl.
  destruct sale as [d p a pr sq]. simpl in *. subst p. reflexivity.
Qed.

(** X6.  A listing adds a sale exactly when its [homeInfo] is an object
    with a non-zero numeric [livingArea] and a numeric [dateSold] that
    [fromtimestamp] accepts, it has a numeric [unformattedPrice] and an
    [address], and neither division raises [OverflowError] (an [int] too
    large for a [float], or a quotient of two [int]s that is); the sale
    then holds that date, price divided by area, and the address, price
    and area as found. *)
Theorem listing_record_accepts_iff (listing : json) (sale : Sale) :
  listing_record fromtimestamp listing = Done (Some sale)
  <-> accepted fromtimestamp listing sale.
Proof.
  split; [apply listing_record_accepted | apply accepted_listing_record].
Qed.

(** ** One page *)

Lemma fetch_page_from (page : Z) (all_data : list Sale) :
  fetch_page fromtimestamp put page all_data
  = (all_data ++ page_sales fromtimestamp put page,
     page_events fromtimestamp put page, page_ok fromtimestamp put page).
Proof.
  unfold page_sales, page_events, page_ok, fetch_page.
  destruct (put page) as [status_code body |]; simpl; [| rewrite app_nil_r; reflexivity].
  destruct (status_code =? 200)%Z; simpl; [| rewrite app_nil_r; reflexivity].
  destruct body as [data |]; simpl; [| rewrite app_nil_r; reflexivity].
  destruct (bind (list_results data) _) as [listings | e]; simpl;
    [| rewrite app_nil_r; reflexivity].
  rewrite (scan_listings_collects listings all_data),
    (scan_listings_collects listings []).
  destruct (first_escape fromtimestamp listings); reflexivity.
Qed.

Lemma page_of_listings (page : Z) (data : json) (listings : list json) :
  put page = Reply 200 (Some data) ->
  (l <- list_results data ;; iterate l) = Done listings ->
  page_sales fromtimestamp put page
  = collect (sale_of fromtimestamp) (before_escape fromtimestamp listings) /\
  (page_ok fromtimestamp put page = true
   <-> first_escape fromtimestamp listings = None).
Proof.
  intros Hput Hlist. unfold page_sales, page_ok, fetch_page.
  rewrite Hput. simpl. rewrite Hlist. rewrite scan_listings_collects.
  destruct (first_escape fromtimestamp listings); simpl;
    (split; [reflexivity | split; congruence]).
Qed.

Lemma page_events_requests (page : Z) :
  requests_of (page_events fromtimestamp put page) = [page].
Proof.
  unfold page_events, fetch_page.
  destruct (put page) as [status_code body |]; [| reflexivity].
  destruct (status_code =? 200)%Z; [| reflexivity].
  destruct body as [data |]; [| reflexivity].
  destruct (bind (list_results data) _) as [listings | e]; [| reflexivity].
  destruct (scan_listings fromtimestamp listings []) as [d [e |]]; reflexivity.
Qed.

Lemma requests_of_app (l1 l2 : list event) :
  requests_of (l1 ++ l2) = requests_of l1 ++ requests_of l2.
Proof. unfold requests_of. apply flat_map_app. Qed.

(** ** The page loop *)

Lemma fetch_pages_from (pages : list Z) (all_data : list Sale) (shown : list event) :
  fetch_pages fromtimestamp put pages all_data shown
  = (all_data ++ concat (map (page_sales fromtimestamp put)
                            (requested fromtimestamp put pages)),
     shown ++ concat (map (page_events fromtimestamp put)
                         (requested fromtimestamp put pages))).
Proof.
  revert all_data shown. induction pages as [| page rest IH]; intros all_data shown.
  - simpl. rewrite !app_nil_r. reflexivity.
  - simpl. rewrite fetch_page_from.
    destruct (page_ok fromtimestamp put page).
    + rewrite IH. simpl. rewrite <- !app_assoc. reflexivity.
    + simpl. rewrite !app_nil_r. reflexivity.
Qed.

Lemma requests_of_pages (pages : list Z) :
  requests_of (concat (map (page_events fromtimestamp put) pages)) = pages.
Proof.
  induction pages as [| page rest IH]; [reflexivity |].
  simpl. rewrite requests_of_app, page_events_requests, IH. reflexivity.
Qed.

Lemma requested_prefix (pages : list Z) :
  exists k, (1 <= k <= length pages \/ pages = [])%nat /\
            requested fromtimestamp put pages = firstn k pages /\
            (forall page, In page (firstn (k - 1) pages) ->
                          page_ok fromtimestamp put page = true) /\
            ((k < length pages)%nat ->
             page_ok fromtimestamp put (nth (k - 1) pages 0%Z) = false).
Proof.
  induction pages as [| page rest IH].
  - exists 0%nat. simpl. repeat split; auto; try tauto. lia.
  - simpl. destruct (page_ok fromtimestamp put page) eqn:Hok.
    + destruct IH as (k & Hk & Hreq & Hbefore & Hlast).
      destruct rest as [| page' rest'].
      * exists 1%nat. simpl. repeat split; auto; try tauto; lia.
      * destruct Hk as [Hk | Hk]; [| discriminate].
        exists (S k). split; [left; simpl in *; lia |].
        split; [simpl; f_equal; exact Hreq |]. split.
        -- intros q Hq. replace (S k - 1)%nat with (S (k - 1)) in Hq by lia.
           destruct Hq as [<- | Hq]; [exact Hok | apply Hbefore; exact Hq].
        -- intros Hlt. replace (S k - 1)%nat with (S (k - 1)) by lia.
           apply Hlast. simpl in *. lia.
    + exists 1%nat. simpl. repeat split; auto; try tauto; try lia.
Qed.
End FetchFacts.

(** * What a fetch returns *)

Section FetchClaims.
Variable fromtimestamp : Q -> option Z.
Variable put : Z -> response.

(** X7.  The fetch requests pages 1, 2, ... in order and stops with the
    first page whose turn ends in [break] (a status other than 200, an
    exception): it requests pages 1 to [k] for some [1 <= k <= 8], every
    page before [k] went through, page [k] failed unless [k = 8], and the
    list returned is what pages 1 to [k] added, in page order. *)
Theorem get_zillow_data_stops_at_first_failure :
  exists k, (1 <= k <= 8)%nat /\
    requests_of (snd (run_get_zillow_data fromtimestamp put)) = firstn k page_range /\
    get_zillow_data fromtimestamp put
    = concat (map (page_sales fromtimestamp put) (firstn k page_range)) /\
    (forall page, (1 <= page < Z.of_nat k)%Z -> page_ok fromtimestamp put page = true) /\
    ((k < 8)%nat -> page_ok fromtimestamp put (Z.of_nat k) = false).
Proof.
  destruct (requested_prefix fromtimestamp put page_range)
    as (k & Hk & Hreq & Hbefore & Hlast).
  destruct Hk as [Hk | Hk]; [| discriminate]. change (length page_range) with 8%nat in *.
  exists k. split; [exact Hk |].
  unfold get_zillow_data, run_get_zillow_data. rewrite fetch_pages_from. cbn [fst snd app].
  rewrite requests_of_pages, Hreq. split; [reflexivity |]. split; [reflexivity |].
  split.
  - intros page Hpage. apply Hbefore.
    assert (Hcases : (k = 1 \/ k = 2 \/ k = 3 \/ k = 4 \/ k = 5 \/ k = 6 \/ k = 7 \/ k = 8)%nat)
      by lia.
    destruct Hcases as [-> | [-> | [-> | [-> | [-> | [-> | [-> | ->]]]]]]];
      simpl in *; lia.
  - intros Hlt. specialize (Hlast Hlt).
    assert (Hcases : (k = 1 \/ k = 2 \/ k = 3 \/ k = 4 \/ k = 5 \/ k = 6 \/ k = 7)%nat)
      by lia.
    destruct Hcases as [-> | [-> | [-> | [-> | [-> | [-> | ->]]]]]]; exact Hlast.
Qed.

(** X8.  Within a page that answers 200 with a list of listings, the loop
    adds the sales of the accepted listings in order and passes over the
    others, up to the first listing whose exception the inner handler does
    not catch; the page lets the fetch go on exactly when there is no such
    listing. *)
Theorem page_adds_accepted_listings (page : Z) (data : json) (listings : list json) :
  put page = Reply 200 (Some data) ->
  (l <- list_results data ;; iterate l) = Done listings ->
  page_sales fromtimestamp put page
  = collect (sale_of fromtimestamp) (before_escape fromtimestamp listings) /\
  (page_ok fromtimestamp put page = true
   <-> first_escape fromtimestamp listings = None).
Proof. apply page_of_listings. Qed.
End FetchClaims.

Lemma page_adds_accepted_listings_witness :
  sample_put 1 = Reply 200 (Some (sample_body sample_page1)) /\
  (l <- list_results (sample_body sample_page1) ;; iterate l) = Done sample_page1 /\
  page_sales sample_fromtimestamp sample_put 1
  = collect (sale_of sample_fromtimestamp)
      (before_escape sample_fromtimestamp sample_page1) /\
  (page_ok sample_fromtimestamp sample_put 1 = true
   <-> first_escape sample_fromtimestamp sample_page1 = None).
Proof.
  assert (H1 : sample_put 1 = Reply 200 (Some (sample_body sample_page1)))
    by reflexivity.
  assert (H2 : (l <- list_results (sample_body sample_page1) ;; iterate l)
               = Done sample_page1) by reflexivity.
  split; [exact H1 |]. split; [exact H2 |].
  exact (page_adds_accepted_listings sample_fromtimestamp sample_put 1 _ _ H1 H2).
Defined.

Section FetchProvenance.
Variable fromtimestamp : Q -> option Z.
Variable put : Z -> response.

Lemma requested_incl (pages : list Z) (page : Z) :
  In page (requested fromtimestamp put pages) -> In page pages.
Proof.
  induction pages as [| q rest IH]; simpl; [tauto |].
  destruct (page_ok fromtimestamp put q); simpl; intuition.
Qed.

Lemma before_escape_incl (listings : list json) (listing : json) :
  In listing (before_escape fromtimestamp listings) -> In listing listings.
Proof.
  induction listings as [| l rest IH]; simpl; [tauto |].
  destruct (escaping fromtimestamp l); simpl; intuition.
Qed.

Lemma page_sales_In (page : Z) (sale : Sale) :
  In sale (page_sales fromtimestamp put page) ->
  exists data listings,
    put page = Reply 200 (Some data) /\
    (l <- list_results data ;; iterate l) = Done listings /\
    In sale (collect (sale_of fromtimestamp) (before_escape fromtimestamp listings)).
Proof.
  unfold page_sales, fetch_page.
  destruct (put page) as [status_code body |]; [| intros []].
  destruct (status_code =? 200)%Z eqn:Hstatus; [| intros []].
  apply Z.eqb_eq in Hstatus. subst status_code.
  destruct body as [data |]; [| intros []].
  destruct (bind (list_results data) _) as [listings | e] eqn:Hlist; [| intros []].
  rewrite scan_listings_collects.
  destruct (first_escape fromtimestamp listings); simpl; intros H;
    exists data, listings; auto.
Qed.

(** X9.  Every sale returned was read off a listing of a page among 1..8
    that answered 200, and that listing was an accepted one: the sale's
    area is a non-zero number, its price a number, its price per square
    foot their quotient, and its date what [fromtimestamp] made of the
    listing's [dateSold]. *)
Theorem get_zillow_data_sales_accepted (sale : Sale) :
  In sale (get_zillow_data fromtimestamp put) ->
  exists page data listings listing,
    (1 <= page <= 8)%Z /\
    put page = Reply 200 (Some data) /\
    (l <- list_results data ;; iterate l) = Done listings /\
    In listing listings /\
    accepted fromtimestamp listing sale.
Proof.
  unfold get_zillow_data, run_get_zillow_data. rewrite fetch_pages_from.
  cbn [fst app]. intros H. apply in_concat in H. destruct H as (sales & Hsales & Hin).
  apply in_map_iff in Hsales. destruct Hsales as (page & <- & Hpage).
  apply requested_incl in Hpage.
  apply page_sales_In in Hin. destruct Hin as (data & listings & Hput & Hlist & Hin).
  apply collect_In in Hin. destruct Hin as (listing & Hlisting & Hsale).
  exists page, data, listings, listing.
  split; [unfold page_range in Hpage; simpl in Hpage; lia |].
  split; [exact Hput |]. split; [exact Hlist |].
  split; [eapply before_escape_incl; exact Hlisting |].
  apply listing_record_accepted. unfold sale_of in Hsale.
  destruct (listing_record fromtimestamp listing) as [[s |] | e]; congruence.
Qed.

(** ** Listings that are passed over, and listings that end the fetch *)

Lemma escaping_sale_of (listing : json) (e : pyexc) :
  escaping fromtimestamp listing = Some e -> sale_of fromtimestamp listing = None.
Proof.
  unfold escaping, sale_of.
  destruct (listing_record fromtimestamp listing) as [[s |] | e']; congruence.
Qed.

Lemma before_escape_none (listings : list json) :
  first_escape fromtimestamp listings = None ->
  before_escape fromtimestamp listings = listings.
Proof.
  induction listings as [| l rest IH]; simpl; [reflexivity |].
  destruct (escaping fromtimestamp l); [discriminate |].
  intros H. f_equal. apply IH. exact H.
Qed.

Lemma before_escape_stop (l1 l2 : list json) (bad : json) (e : pyexc) :
  first_escape fromtimestamp l1 = None ->
  escaping fromtimestamp bad = Some e ->
  before_escape fromtimestamp (l1 ++ bad :: l2) = l1 /\
  first_escape fromtimestamp (l1 ++ bad :: l2) = Some e.
Proof.
  intros H1 Hbad. induction l1 as [| l rest IH]; simpl in *.
  - rewrite Hbad. split; reflexivity.
  - destruct (escaping fromtimestamp l); [discriminate |].
    destruct (IH H1) as [-> ->]. split; reflexivity.
Qed.

Lemma home_info_not_object_escapes (listing v : json) :
  home_info listing = Done v -> (forall fields, v <> JDict fields) ->
  escaping fromtimestamp listing = Some PyAttributeError.
Proof.
  intros Hinfo Hv. unfold escaping, listing_record. rewrite Hinfo. simpl.
  destruct v; try reflexivity. exfalso. eapply Hv. reflexivity.
Qed.

Lemma passed_over (listing : json) :
  (exists e, home_info listing = Throw e) \/
  (exists fields, home_info listing = Done (JDict fields) /\
     truthy (match lookup "livingArea"%string fields with
             | Some area => area
             | None => JNull
             end) = false) ->
  sale_of fromtimestamp listing = None /\ escaping fromtimestamp listing = None.
Proof.
  intros [(e & He) | (fields & Hinfo & Hfalsy)];
    unfold sale_of, escaping, listing_record.
  - rewrite He. simpl.
    assert (Hc : caught_inner e = true).
    { unfold home_info in He. destruct listing; simpl in He; try (injection He as <-; reflexivity).
      destruct (lookup "hdpData"%string fields) as [hdp |]; simpl in He;
        [| injection He as <-; reflexivity].
      destruct hdp; simpl in He; try (injection He as <-; reflexivity).
      destruct (lookup "homeInfo"%string fields0); simpl in He;
        [discriminate | injection He as <-; reflexivity]. }
    rewrite Hc. split; reflexivity.
  - rewrite Hinfo. simpl.
    destruct (lookup "livingArea"%string fields) as [area |]; simpl;
      try rewrite Hfalsy; split; reflexivity.
Qed.

Lemma scan_listings_drop (l1 l2 : list json) (listing : json) (all_data : list Sale) :
  sale_of fromtimestamp listing = None -> escaping fromtimestamp listing = None ->
  scan_listings fromtimestamp (l1 ++ listing :: l2) all_data
  = scan_listings fromtimestamp (l1 ++ l2) all_data.
Proof.
  intros Hsale Hesc. rewrite !scan_listings_collects. f_equal.
  - f_equal. induction l1 as [| l rest IH]; simpl.
    + rewrite Hesc. simpl. rewrite Hsale. reflexivity.
    + destruct (escaping fromtimestamp l); [reflexivity |]. simpl.
      destruct (sale_of fromtimestamp l); [f_equal |]; exact IH.
  - induction l1 as [| l rest IH]; simpl.
    + rewrite Hesc. reflexivity.
    + destruct (escaping fromtimestamp l); [reflexivity | exact IH].
Qed.

(** X10.  A listing without [hdpData] or [homeInfo], or whose living area
    is missing, null or zero, is passed over without a trace: the loop
    over a page's listings gives the same result with and without it. *)
Theorem listing_without_area_passed_over (l1 l2 : list json) (listing : json)
    (all_data : list Sale) :
  (exists e, home_info listing = Throw e) \/
  (exists fields, home_info listing = Done (JDict fields) /\
     truthy (match lookup "livingArea"%string fields with
             | Some area => area
             | None => JNull
             end) = false) ->
  scan_listings fromtimestamp (l1 ++ listing :: l2) all_data
  = scan_listings fromtimestamp (l1 ++ l2) all_data.
Proof.
  intros H. destruct (passed_over listing H) as [Hsale Hesc].
  apply scan_listings_drop; assumption.
Qed.

(** X11.  A listing whose [homeInfo] is present but is not an object (a
    [null], say) is not passed over: the [AttributeError] of [.get]
    escapes the inner handler, so the page keeps the sales of the listings
    before it, drops those after it, and ends the fetch. *)
Theorem listing_with_bad_home_info_ends_fetch (page : Z) (data : json)
    (l1 l2 : list json) (bad v : json) :
  put page = Reply 200 (Some data) ->
  (l <- list_results data ;; iterate l) = Done (l1 ++ bad :: l2) ->
  first_escape fromtimestamp l1 = None ->
  home_info bad = Done v -> (forall fields, v <> JDict fields) ->
  page_sales fromtimestamp put page = collect (sale_of fromtimestamp) l1 /\
  page_ok fromtimestamp put page = false /\
  page_events fromtimestamp put page = [Requested page; ErrorProcessing page].
Proof.
  intros Hput Hlist Hl1 Hinfo Hv.
  pose proof (home_info_not_object_escapes bad v Hinfo Hv) as Hesc.
  destruct (before_escape_stop l1 l2 bad _ Hl1 Hesc) as [Hbefore Hfirst].
  unfold page_sales, page_ok, page_events, fetch_page.
  rewrite Hput. simpl. rewrite Hlist, scan_listings_collects, Hbefore, Hfirst.
  repeat split; reflexivity.
Qed.
End FetchProvenance.

Lemma get_zillow_data_sales_accepted_witness :
  In (nth 0 (get_zillow_data sample_fromtimestamp sample_put)
            (mkSale 0 0 JNull JNull JNull))
     (get_zillow_data sample_fromtimestamp sample_put) /\
  exists page data listings listing,
    (1 <= page <= 8)%Z /\
    sample_put page = Reply 200 (Some data) /\
    (l <- list_results data ;; iterate l) = Done listings /\
    In listing listings /\
    accepted sample_fromtimestamp listing
      (nth 0 (get_zillow_data sample_fromtimestamp sample_put)
             (mkSale 0 0 JNull JNull JNull)).
Proof.
  assert (H : In (nth 0 (get_zillow_data sample_fromtimestamp sample_put)
                        (mkSale 0 0 JNull JNull JNull))
                 (get_zillow_data sample_fromtimestamp sample_put))
    by (vm_compute; left; reflexivity).
  split; [exact H |].
  exact (get_zillow_data_sales_accepted sample_fromtimestamp sample_put _ H).
Defined.

Lemma listing_without_area_passed_over_witness :
  ((exists e, home_info (sample_listing 400000 (JDict [("dateSold"%string, JInt 86400000)]))
              = Throw e) \/
   (exists fields,
       home_info (sample_listing 400000 (JDict [("dateSold"%string, JInt 86400000)]))
       = Done (JDict fields) /\
       truthy (match lookup "livingArea"%string fields with
               | Some area => area
               | None => JNull
               end) = false)) /\
  scan_listings sample_fromtimestamp sample_page1 []
  = scan_listings sample_fromtimestamp
      [sample_listing 500000 (sample_home_info (JInt 1000) 86400000);
       sample_listing 900000 (sample_home_info (JInt 1500) 172800000)] [].
Proof.
  assert (H : (exists e,
                  home_info (sample_listing 400000 (JDict [("dateSold"%string, JInt 86400000)]))
                  = Throw e) \/
              (exists fields,
                  home_info (sample_listing 400000 (JDict [("dateSold"%string, JInt 86400000)]))
                  = Done (JDict fields) /\
                  truthy (match lookup "livingArea"%string fields with
                          | Some area => area
                          | None => JNull
                          end) = false)).
  { right. eexists. split; reflexivity. }
  split; [exact H |].
  exact (listing_without_area_passed_over sample_fromtimestamp
           [sample_listing 500000 (sample_home_info (JInt 1000) 86400000)]
           [sample_listing 900000 (sample_home_info (JInt 1500) 172800000)]
           _ [] H).
Defined.

Lemma listing_with_bad_home_info_ends_fetch_witness :
  sample_put 2 = Reply 200 (Some (sample_body sample_page2)) /\
  first_escape sample_fromtimestamp
    [sample_listing 300000 (sample_home_info (JInt 600) 172800000)] = None /\
  home_info (sample_listing 700000 JNull) = Done JNull /\
  (forall fields, JNull <> JDict fields) /\
  page_sales sample_fromtimestamp sample_put 2
  = collect (sale_of sample_fromtimestamp)
      [sample_listing 300000 (sample_home_info (JInt 600) 172800000)] /\
  page_ok sample_fromtimestamp sample_put 2 = false /\
  page_events sample_fromtimestamp sample_put 2 = [Requested 2; ErrorProcessing 2].
Proof.
  assert (H1 : sample_put 2 = Reply 200 (Some (sample_body sample_page2)))
    by reflexivity.
  assert (H2 : (l <- list_results (sample_body sample_page2) ;; iterate l)
               = Done ([sample_listing 300000 (sample_home_info (JInt 600) 172800000)]
                       ++ sample_listing 700000 JNull
                       :: [sample_listing 800000 (sample_home_info (JInt 2000) 259200000)]))
    by reflexivity.
  assert (H3 : first_escape sample_fromtimestamp
                 [sample_listing 300000 (sample_home_info (JInt 600) 172800000)] = None)
    by (vm_compute; reflexivity).
  assert (H4 : home_info (sample_listing 700000 JNull) = Done JNull) by reflexivity.
  assert (H5 : forall fields, JNull <> JDict fields) by (intros fields; discriminate).
  split; [exact H1 |]. split; [exact H3 |]. split; [exact H4 |]. split; [exact H5 |].
  exact (listing_with_bad_home_info_ends_fetch sample_fromtimestamp sample_put 2 _
           _ _ _ _ H1 H2 H3 H4 H5).
Defined.

(** A listing priced [10^400] over an area of 1: the quotient of the two
    [int]s is too large for a [float], the division raises
    [OverflowError], which the inner handler does not catch, and the
    listings after it are not read. *)
Lemma oversized_price_ends_scan :
  listing_record sample_fromtimestamp
    (sample_listing (10 ^ 400) (sample_home_info (JInt 1) 86400000))
  = Throw PyOverflowError /\
  caught_inner PyOverflowError = false /\
  scan_listings sample_fromtimestamp
    [sample_listing (10 ^ 400) (sample_home_info (JInt 1) 86400000);
     sample_listing 500000 (sample_home_info (JInt 1000) 86400000)] []
  = ([], Some PyOverflowError).
Proof. repeat split; vm_compute; reflexivity. Qed.

(** * Properties of [main] *)

(** ** Bounds for the metrics *)






Section MainFacts.
Variable fromtimestamp : Q -> option Z.
Variable put : Z -> response.

Lemma main_steps (session : Session) (w : Z) (m : Q) (clicked : bool) :
  main fromtimestamp put session w m clicked
  = (fst (fetch_step fromtimestamp put session clicked),
     snd (fetch_step fromtimestamp put session clicked),
     show_step (fst (fetch_step fromtimestamp put session clicked)) w m).
Proof.
  unfold main. destruct (fetch_step fromtimestamp put session clicked). reflexivity.
Qed.

(** One run: the session never comes to hold an empty list; with data in
    the session a run makes no request and leaves the session as it is;
    without data and without a click nothing happens. *)
Lemma main_step_session (session : Session) (w : Z) (m : Q) (clicked : bool) :
  let session' := fst (fst (main fromtimestamp put session w m clicked)) in
  let notices := snd (fst (main fromtimestamp put session w m clicked)) in
  (session <> Some [] -> session' <> Some []) /\
  (forall data, session = Some data -> session' = Some data /\ notices = []) /\
  (session = None -> clicked = false ->
   session' = None /\ notices = [] /\
   snd (main fromtimestamp put session w m clicked) = NothingShown).
Proof.
  cbv zeta. rewrite main_steps. cbn [fst snd]. split; [| split].
  - intros Hne. unfold fetch_step. destruct session as [data |]; [exact Hne |].
    destruct clicked; [| discriminate].
    destruct (run_get_zillow_data fromtimestamp put) as [[| sale data] events];
      discriminate.
  - intros data ->. split; reflexivity.
  - intros -> ->. repeat split; reflexivity.
Qed.




End MainFacts.






(** ** Successive runs *)

Lemma replay_with_data (fromtimestamp : Q -> option Z) (data : list Sale)
    (inputs : list run_input) :
  replay fromtimestamp (Some data) inputs = (Some data, []).
Proof.
  induction inputs as [| [[[w m] clicked] put] rest IH]; [reflexivity |].
  cbn [replay]. rewrite main_steps. cbn [fst snd fetch_step]. rewrite IH. reflexivity.
Qed.

Lemma replay_app (fromtimestamp : Q -> option Z) (session : Session)
    (before after : list run_input) :
  replay fromtimestamp session (before ++ after)
  = (fst (replay fromtimestamp (fst (replay fromtimestamp session before)) after),
     snd (replay fromtimestamp session before)
     ++ snd (replay fromtimestamp (fst (replay fromtimestamp session before)) after)).
Proof.
  revert session. induction before as [| [[[w m] clicked] put] rest IH]; intros session.
  - simpl. destruct (replay fromtimestamp session after). reflexivity.
  - cbn [replay app]. rewrite main_steps. cbn [fst snd].
    rewrite IH.
    destruct (replay fromtimestamp (fst (fetch_step fromtimestamp put session clicked)) rest)
      as [mid shown]. cbn [fst snd].
    destruct (replay fromtimestamp mid after). cbn [fst snd].
    rewrite app_assoc. reflexivity.
Qed.

Lemma replay_never_empty (fromtimestamp : Q -> option Z) (session : Session)
    (inputs : list run_input) :
  session <> Some [] -> fst (replay fromtimestamp session inputs) <> Some [].
Proof.
  revert session. induction inputs as [| [[[w m] clicked] put] rest IH];
    intros session Hne; [exact Hne |].
  cbn [replay]. rewrite main_steps. cbn [fst snd].
  destruct (main_step_session fromtimestamp put session w m clicked) as (Hstep & _).
  rewrite main_steps in Hstep. cbn [fst snd] in Hstep.
  specialize (IH _ (Hstep Hne)).
  destruct (replay fromtimestamp (fst (fetch_step fromtimestamp put session clicked)) rest).
  exact IH.
Qed.

(** X12.  Over any succession of runs that starts with an empty session,
    whatever the sliders, the clicks and the server's answers: the session
    never holds an empty list, and once it holds data every later run
    leaves that data in place and makes no request and shows no notice --
    the data of a session is fetched once and never refreshed. *)
Theorem session_data_fetched_once (fromtimestamp : Q -> option Z)
    (before after : list run_input) :
  fst (replay fromtimestamp None before) <> Some [] /\
  forall data,
    fst (replay fromtimestamp None before) = Some data ->
    replay fromtimestamp None (before ++ after)
    = (Some data, snd (replay fromtimestamp None before)).
Proof.
  split.
  - apply replay_never_empty. discriminate.
  - intros data Hdata. rewrite replay_app, Hdata, replay_with_data.
    cbn [fst snd]. rewrite app_nil_r. reflexivity.
Qed.

Lemma session_data_fetched_once_witness :
  fst (replay sample_fromtimestamp None first_runs) = Some sample_session /\
  replay sample_fromtimestamp None (first_runs ++ later_runs)
  = (Some sample_session, snd (replay sample_fromtimestamp None first_runs)).
Proof.
  assert (H : fst (replay sample_fromtimestamp None first_runs) = Some sample_session)
    by (vm_compute; reflexivity).
  split; [exact H |].
  exact (proj2 (session_data_fetched_once sample_fromtimestamp first_runs later_runs)
               sample_session H).
Defined.

Lemma get_zillow_data_stops_at_first_failure_witness :
  exists k, (1 <= k <= 8)%nat /\
    requests_of (snd (run_get_zillow_data sample_fromtimestamp sample_put))
    = firstn k page_range /\
    get_zillow_data sample_fromtimestamp sample_put
    = concat (map (page_sales sample_fromtimestamp sample_put) (firstn k page_range)) /\
    (forall page, (1 <= page < Z.of_nat k)%Z ->
                  page_ok sample_fromtimestamp sample_put page = true) /\
    ((k < 8)%nat -> page_ok sample_fromtimestamp sample_put (Z.of_nat k) = false).
Proof.
  exact (get_zillow_data_stops_at_first_failure sample_fromtimestamp sample_put).
Defined.
